(** * reddisc: the ingestion pipeline of the Reddit scraper

    A shallow embedding of [RedditService] (src/reddit/reddit.service.ts, the
    axios version with scheduling and run logging) and of [DatabaseService]
    (database.service.ts, the version with [updatePost] and scraping logs),
    followed by the properties of the pipeline.

    The asynchronous methods are sequential ([await] at every call), so they
    are embedded in a state-and-exception monad over a [World]: the four
    Supabase tables the code touches, and a chronological trace of the
    effects the code performs (timer delays, HTTP requests, database
    requests).  What the outside world answers (HTTP responses, database
    failures, the wall clock) is read from an [Env] of oracles.  The calls
    to [this.logger] write to the console only and are left out; a
    [catch] that logs and rethrows is kept as a [try_catch] that
    rethrows.  The first version of the two services (the scrape that
    saves unknown ids only, over a [savePost] that inserts) and the checks
    of the configuration at start-up are embedded after them. *)

From Stdlib Require Import String DecimalString ZArith QArith List Bool Lia.
Import ListNotations.
Open Scope string_scope.
Open Scope list_scope.
Open Scope Z_scope.

Set Implicit Arguments.

(* ------------------------------------------------------------------ *)
(** ** JavaScript values *)

(** The part of JavaScript's [any] that a JSON field of a Reddit listing can
    hold, and the absent field ([undefined]). *)
Inductive JsVal : Type :=
| JUndefined
| JNull
| JBool (b : bool)
| JNum (q : Q)
| JStr (s : string).

(** ToBoolean: [undefined], [null], [false], [0] and [""] are falsy. *)
Definition truthy (v : JsVal) : bool :=
  match v with
  | JUndefined | JNull => false
  | JBool b => b
  | JNum q => negb (Qeq_bool q 0)
  | JStr s => negb (s =? "")%string
  end.

(** [a || b] *)
Definition js_or (a b : JsVal) : JsVal := if truthy a then a else b.

(** A [Date], as its time value in milliseconds since the epoch. *)
Definition Date := Z.

(** [new Date(ms)]: the time value is [ms] truncated towards zero. *)
Definition new_Date (ms : Q) : Date := Z.quot (Qnum ms) (Zpos (Qden ms)).

(** The value a [throw] carries; the code only ever reads [error.message]. *)
Record JsError : Type := mkError { message : string }.

(* ------------------------------------------------------------------ *)
(** ** Data model *)

(** The object [item.data] of a listing child, and the object
    [formatPostData] builds from it: both have the same keys. *)
Module Post.
Record t : Type := mk {
  id : string;
  title : JsVal;
  author : JsVal;
  subreddit : JsVal;
  score : JsVal;
  upvote_ratio : JsVal;
  url : JsVal;
  created_utc : Q;
  num_comments : JsVal;
  selftext : JsVal;
  permalink : JsVal;
  thumbnail : JsVal;
  is_video : JsVal;
  domain : JsVal;
  link_flair_text : JsVal
}.
End Post.

(** A row of table [reddit_posts].  [last_updated_at] is [None] as long as
    the pipeline has not written the column. *)
Module PostRow.
Record t : Type := mk {
  post_id : string;
  title : JsVal;
  author : JsVal;
  subreddit : JsVal;
  score : JsVal;
  upvote_ratio : JsVal;
  url : JsVal;
  created_utc : Date;
  num_comments : JsVal;
  selftext : JsVal;
  permalink : JsVal;
  thumbnail : JsVal;
  is_video : JsVal;
  domain : JsVal;
  link_flair_text : JsVal;
  last_updated_at : option Date
}.
End PostRow.

(** Modelled from the spec: a row of table [post_snapshots].  The source only
    reads the table ([getPostSnapshots], by [post_id], ordered by
    [snapshot_at]); the metric columns are those the data model of the
    specification lists for a Snapshot. *)
Module Snapshot.
Record t : Type := mk {
  post_id : string;
  score : JsVal;
  num_comments : JsVal;
  upvote_ratio : JsVal;
  snapshot_at : Date
}.
End Snapshot.

(** A row of table [scraping_logs]. *)
Module Log.
Record t : Type := mk {
  subreddit : string;
  scrape_type : string;
  status : string;
  posts_found : nat;
  posts_saved : nat;
  error_message : option string;
  duration_ms : option Z;
  completed_at : Date
}.
End Log.

(** A row of table [subreddits]. *)
Module Sub.
Record t : Type := mk {
  name : string;
  display_name : string;
  description : option string;
  is_active : bool;
  last_scraped_at : option Date
}.
End Sub.

(** [interface ScrapeResult].  An element of [posts] is what [savePost]
    returned for one item: the array of rows of the [.select()]. *)
Record ScrapeResult : Type := mkResult {
  subreddit : string;
  totalPosts : nat;
  newPosts : nat;
  posts : list (list PostRow.t);
  duration : Z;
  timeframe : option string;
  error : option string
}.

(** What [scrapeAllSubreddits] and [scrapeTopPostsAllSubreddits] return. *)
Record BatchResult : Type := mkBatch {
  total : nat;
  batch_timeframe : option string;
  results : list ScrapeResult
}.

(** An entry of the array [searchPosts] returns. *)
Record SearchHit : Type := mkHit {
  hit_id : string;
  hit_title : JsVal;
  hit_author : JsVal;
  hit_subreddit : JsVal;
  hit_score : JsVal;
  hit_url : JsVal;
  hit_created_utc : Q;
  hit_num_comments : JsVal;
  hit_permalink : JsVal
}.

(* ------------------------------------------------------------------ *)
(** ** RedditService.formatPostData *)

Definition formatPostData (post : Post.t) : Post.t :=
  {| Post.id := Post.id post;
     Post.title := Post.title post;
     Post.author := js_or (Post.author post) (JStr "deleted");
     Post.subreddit := Post.subreddit post;
     Post.score := Post.score post;
     Post.upvote_ratio := Post.upvote_ratio post;
     Post.url := Post.url post;
     Post.created_utc := Post.created_utc post;
     Post.num_comments := Post.num_comments post;
     Post.selftext := js_or (Post.selftext post) (JStr "");
     Post.permalink := Post.permalink post;
     Post.thumbnail := Post.thumbnail post;
     Post.is_video := js_or (Post.is_video post) (JBool false);
     Post.domain := Post.domain post;
     Post.link_flair_text := Post.link_flair_text post |}.

(** A field the listing does not carry: absent, or JSON [null]. *)
Definition missing (v : JsVal) : Prop := v = JUndefined \/ v = JNull.

(* ------------------------------------------------------------------ *)
(** ** The world: the Supabase tables and the trace of effects *)

(** The PostgREST requests the two services issue, by table and key. *)
Inductive DbOp : Type :=
| SelectPost (post_id : string)
| InsertPost (post_id : string)
| UpdatePost (post_id : string)
| UpdateSubreddit (name : string)
| InsertSubreddit (name : string)
| ToggleSubreddit (name : string)
| SelectSubreddits
| InsertLog (subreddit : string).

(** What the process does to the outside, in the order it does it:
    [setTimeout] waits, [axios.get] requests, database requests and whether
    the store accepted them. *)
Inductive Event : Type :=
| EDelay (ms : Z)
| EGet (url : string)
| EDb (op : DbOp) (ok : bool).

Record World : Type := mkWorld {
  reddit_posts : list PostRow.t;
  post_snapshots : list Snapshot.t;
  scraping_logs : list Log.t;
  subreddits : list Sub.t;
  trace : list Event
}.

Definition is_get (ev : Event) : bool :=
  match ev with EGet _ => true | _ => false end.

Definition is_db (ev : Event) : bool :=
  match ev with EDb _ _ => true | _ => false end.

(** How many HTTP requests, and how many database requests, were issued. *)
Definition http_no (w : World) : nat := length (filter is_get (trace w)).
Definition db_no (w : World) : nat := length (filter is_db (trace w)).

Definition record_event (ev : Event) (w : World) : World :=
  {| reddit_posts := reddit_posts w;
     post_snapshots := post_snapshots w;
     scraping_logs := scraping_logs w;
     subreddits := subreddits w;
     trace := trace w ++ [ev] |}.

Definition set_reddit_posts (rows : list PostRow.t) (w : World) : World :=
  {| reddit_posts := rows;
     post_snapshots := post_snapshots w;
     scraping_logs := scraping_logs w;
     subreddits := subreddits w;
     trace := trace w |}.

Definition set_scraping_logs (rows : list Log.t) (w : World) : World :=
  {| reddit_posts := reddit_posts w;
     post_snapshots := post_snapshots w;
     scraping_logs := rows;
     subreddits := subreddits w;
     trace := trace w |}.

Definition set_subreddits (rows : list Sub.t) (w : World) : World :=
  {| reddit_posts := reddit_posts w;
     post_snapshots := post_snapshots w;
     scraping_logs := scraping_logs w;
     subreddits := rows;
     trace := trace w |}.

(** The answers of the outside world.  [http n url] is the outcome of the
    [n]-th HTTP request when it asks for [url]: the posts [item.data] of
    [response.data.data.children], or the error raised by the request or by
    reading a malformed body.  [db_fault n op] is the error the store answers
    to the [n]-th database request when it is [op], if any (for a select,
    an error other than PGRST116).  [clock k] is the wall clock, in
    milliseconds, after [k] effects. *)
Record Env : Type := mkEnv {
  http : nat -> string -> JsError + list Post.t;
  db_fault : nat -> DbOp -> option JsError;
  clock : nat -> Z;
  encodeURIComponent : string -> string
}.

(* ------------------------------------------------------------------ *)
(** ** The monad of the asynchronous methods *)

Inductive Res (A : Type) : Type :=
| Ok (a : A)
| Throw (e : JsError).

Arguments Throw {A} e.

Definition M (A : Type) : Type := World -> Res A * World.

Definition ret {A : Type} (a : A) : M A := fun w => (Ok a, w).

Definition throw {A : Type} (e : JsError) : M A := fun w => (Throw e, w).

Definition bind {A B : Type} (m : M A) (k : A -> M B) : M B :=
  fun w =>
    match m w with
    | (Ok a, w') => k a w'
    | (Throw e, w') => (Throw e, w')
    end.

(** [try { m } catch (error) { h error }] *)
Definition try_catch {A : Type} (m : M A) (h : JsError -> M A) : M A :=
  fun w =>
    match m w with
    | (Ok a, w') => (Ok a, w')
    | (Throw e, w') => h e w'
    end.

Definition gets {A : Type} (f : World -> A) : M A := fun w => (Ok (f w), w).

Definition modify (f : World -> World) : M unit := fun w => (Ok tt, f w).

Declare Scope js_scope.
Delimit Scope js_scope with js.
Notation "x <- m ;; k" := (bind m (fun x => k))
  (at level 61, m at next level, right associativity) : js_scope.
Notation "m ;; k" := (bind m (fun _ => k))
  (at level 61, right associativity) : js_scope.
Open Scope js_scope.

(* ------------------------------------------------------------------ *)
(** ** Pure helpers of the table operations *)

Definition has_id (postId : string) (r : PostRow.t) : bool :=
  (PostRow.post_id r =? postId)%string.

(** [.single()]: the row when exactly one matches; with no row or several,
    PostgREST answers PGRST116 and [data] is [null]. *)
Definition single {A : Type} (rows : list A) : option A :=
  match rows with
  | [r] => Some r
  | _ => None
  end.

(** The object [savePost] inserts. *)
Definition insert_row (postData : Post.t) : PostRow.t :=
  {| PostRow.post_id := Post.id postData;
     PostRow.title := Post.title postData;
     PostRow.author := Post.author postData;
     PostRow.subreddit := Post.subreddit postData;
     PostRow.score := Post.score postData;
     PostRow.upvote_ratio := Post.upvote_ratio postData;
     PostRow.url := Post.url postData;
     PostRow.created_utc := new_Date (Post.created_utc postData * 1000);
     PostRow.num_comments := Post.num_comments postData;
     PostRow.selftext := Post.selftext postData;
     PostRow.permalink := Post.permalink postData;
     PostRow.thumbnail := Post.thumbnail postData;
     PostRow.is_video := js_or (Post.is_video postData) (JBool false);
     PostRow.domain := Post.domain postData;
     PostRow.link_flair_text := Post.link_flair_text postData;
     PostRow.last_updated_at := None |}.

(** The columns [updatePost] writes into a row. *)
Definition update_row (postData : Post.t) (now : Date) (r : PostRow.t) : PostRow.t :=
  {| PostRow.post_id := PostRow.post_id r;
     PostRow.title := PostRow.title r;
     PostRow.author := PostRow.author r;
     PostRow.subreddit := PostRow.subreddit r;
     PostRow.score := Post.score postData;
     PostRow.upvote_ratio := Post.upvote_ratio postData;
     PostRow.url := PostRow.url r;
     PostRow.created_utc := PostRow.created_utc r;
     PostRow.num_comments := Post.num_comments postData;
     PostRow.selftext := Post.selftext postData;
     PostRow.permalink := PostRow.permalink r;
     PostRow.thumbnail := PostRow.thumbnail r;
     PostRow.is_video := PostRow.is_video r;
     PostRow.domain := PostRow.domain r;
     PostRow.link_flair_text := PostRow.link_flair_text r;
     PostRow.last_updated_at := Some now |}.

(** [.update({...}).eq('post_id', id)] on the rows of the table. *)
Definition update_posts (postData : Post.t) (now : Date) (rows : list PostRow.t)
  : list PostRow.t :=
  map (fun r => if has_id (Post.id postData) r then update_row postData now r else r)
      rows.

Definition touch_sub (now : Date) (s : Sub.t) : Sub.t :=
  {| Sub.name := Sub.name s;
     Sub.display_name := Sub.display_name s;
     Sub.description := Sub.description s;
     Sub.is_active := Sub.is_active s;
     Sub.last_scraped_at := Some now |}.

Definition set_active (isActive : bool) (s : Sub.t) : Sub.t :=
  {| Sub.name := Sub.name s;
     Sub.display_name := Sub.display_name s;
     Sub.description := Sub.description s;
     Sub.is_active := isActive;
     Sub.last_scraped_at := Sub.last_scraped_at s |}.

Definition update_subs (name : string) (f : Sub.t -> Sub.t) (rows : list Sub.t)
  : list Sub.t :=
  map (fun s => if (Sub.name s =? name)%string then f s else s) rows.

(** [x || null] for an optional string: absent and [""] give [null]. *)
Definition str_or_null (x : option string) : option string :=
  match x with
  | Some s => if (s =? "")%string then None else Some s
  | None => None
  end.

(** [x || null] for an optional number: absent and [0] give [null]. *)
Definition num_or_null (x : option Z) : option Z :=
  match x with
  | Some n => if n =? 0 then None else Some n
  | None => None
  end.

(** [x || y] for an optional string and a string. *)
Definition str_or (x : option string) (y : string) : string :=
  match str_or_null x with
  | Some s => s
  | None => y
  end.

(** Truthiness of the [data] an insert or update with [.select()] resolves
    to without error: an array, and every array is truthy. *)
Definition truthy_rows (data : list PostRow.t) : bool := true.

(* ------------------------------------------------------------------ *)
(** ** The two services *)

Section Services.

Variable env : Env.

(** *** Effects *)

(** [this.delay(ms)]: a timer; it cannot fail. *)
Definition delay (ms : Z) : M unit :=
  modify (record_event (EDelay ms)).

(** [Date.now()] and the time value of [new Date()]. *)
Definition Date_now : M Date :=
  gets (fun w => clock env (length (trace w))).

(** [axios.get(url, ...)] followed by [response.data.data.children]. *)
Definition axios_get (url : string) : M (list Post.t) :=
  fun w =>
    match http env (http_no w) url with
    | inl e => (Throw e, record_event (EGet url) w)
    | inr children => (Ok children, record_event (EGet url) w)
    end.

(** One request to the store; [if (error) throw error] on its answer. *)
Definition db_request (op : DbOp) : M unit :=
  fun w =>
    match db_fault env (db_no w) op with
    | Some e => (Throw e, record_event (EDb op false) w)
    | None => (Ok tt, record_event (EDb op true) w)
    end.

(** *** DatabaseService *)

Definition getPostById (postId : string) : M (option PostRow.t) :=
  db_request (SelectPost postId) ;;
  rows <- gets reddit_posts ;;
  ret (single (filter (has_id postId) rows)).

Definition updatePost (postData : Post.t) : M (list PostRow.t) :=
  try_catch
    (now <- Date_now ;;
     db_request (UpdatePost (Post.id postData)) ;;
     modify (fun w => set_reddit_posts
                        (update_posts postData now (reddit_posts w)) w) ;;
     rows <- gets reddit_posts ;;
     ret (filter (has_id (Post.id postData)) rows))
    (fun error => throw error).

Definition savePost (postData : Post.t) : M (list PostRow.t) :=
  try_catch
    (existing <- getPostById (Post.id postData) ;;
     match existing with
     | Some _ =>
         (* Update existing post and create snapshot *)
         updatePost postData
     | None =>
         (* Insert new post *)
         db_request (InsertPost (Post.id postData)) ;;
         modify (fun w => set_reddit_posts
                            (reddit_posts w ++ [insert_row postData]) w) ;;
         ret [insert_row postData]
     end)
    (fun error => throw error).

Definition updateSubredditLastScraped (subredditName : string)
  : M (list Sub.t) :=
  now <- Date_now ;;
  db_request (UpdateSubreddit subredditName) ;;
  modify (fun w => set_subreddits
                     (update_subs subredditName (touch_sub now) (subreddits w)) w) ;;
  rows <- gets subreddits ;;
  ret (filter (fun s => (Sub.name s =? subredditName)%string) rows).

Definition getActiveSubreddits : M (list Sub.t) :=
  db_request SelectSubreddits ;;
  rows <- gets subreddits ;;
  ret (filter Sub.is_active rows).

Definition addSubreddit (name : string) (displayName description : option string)
  : M (list Sub.t) :=
  let row := {| Sub.name := name;
                Sub.display_name := str_or displayName name;
                Sub.description := str_or_null description;
                Sub.is_active := true;
                Sub.last_scraped_at := None |} in
  db_request (InsertSubreddit name) ;;
  modify (fun w => set_subreddits (subreddits w ++ [row]) w) ;;
  ret [row].

Definition toggleSubreddit (name : string) (isActive : bool) : M (list Sub.t) :=
  db_request (ToggleSubreddit name) ;;
  modify (fun w => set_subreddits
                     (update_subs name (set_active isActive) (subreddits w)) w) ;;
  rows <- gets subreddits ;;
  ret (filter (fun s => (Sub.name s =? name)%string) rows).

Definition createScrapingLog
    (subreddit scrapeType status : string) (postsFound postsSaved : nat)
    (errorMessage : option string) (durationMs : option Z) : M (list Log.t) :=
  now <- Date_now ;;
  let row := {| Log.subreddit := subreddit;
                Log.scrape_type := scrapeType;
                Log.status := status;
                Log.posts_found := postsFound;
                Log.posts_saved := postsSaved;
                Log.error_message := str_or_null errorMessage;
                Log.duration_ms := num_or_null durationMs;
                Log.completed_at := now |} in
  db_request (InsertLog subreddit) ;;
  modify (fun w => set_scraping_logs (scraping_logs w ++ [row]) w) ;;
  ret [row].

(** *** RedditService *)

Definition baseUrl : string := "https://www.reddit.com".

(** List of subreddits to track *)
Definition trackedSubreddits : list string :=
  [ "B2BSaas";
    "Business_Ideas";
    "Entrepreneur";
    "indiehackers";
    "Saas";
    "SaaSMarketing";
    "SaaS";
    "Startup_Ideas";
    "microsaas" ].

(** A number in a template literal. *)
Definition show (n : Z) : string := NilZero.string_of_int (Z.to_int n).

Definition hot_url (subredditName : string) (limit : Z) : string :=
  (baseUrl ++ "/r/" ++ subredditName ++ "/hot.json?limit=" ++ show limit)%string.

Definition top_url (subredditName timeframe : string) (limit : Z) : string :=
  (baseUrl ++ "/r/" ++ subredditName ++ "/top.json?t=" ++ timeframe
     ++ "&limit=" ++ show limit)%string.

Definition new_url (subredditName : string) (limit : Z) : string :=
  (baseUrl ++ "/r/" ++ subredditName ++ "/new.json?limit=" ++ show limit)%string.

Definition search_url (subredditName query : string) (limit : Z) : string :=
  (baseUrl ++ "/r/" ++ subredditName ++ "/search.json?q="
     ++ encodeURIComponent env query ++ "&restrict_sr=1&limit=" ++ show limit
     ++ "&sort=relevance")%string.

(** The loop [for (const item of posts)] of the three scraping methods,
    with the array [savedPosts] it pushes to. *)
Fixpoint savePosts (posts : list Post.t) (savedPosts : list (list PostRow.t))
  : M (list (list PostRow.t)) :=
  match posts with
  | [] => ret savedPosts
  | post :: rest =>
      let postData := formatPostData post in
      savedPosts' <-
        try_catch
          (saved <- savePost postData ;;
           ret (if truthy_rows saved then savedPosts ++ [saved] else savedPosts))
          (fun error => ret savedPosts) ;;
      savePosts rest savedPosts'
  end.

(** The body the methods [scrapeSubreddit], [getTopPosts] and [getNewPosts]
    share: they differ in the URL, in the [scrapeType] they log and in the
    [timeframe] key of the result. *)
Definition scrapeListing (url scrapeType : string) (tf : option string)
    (subredditName : string) : M ScrapeResult :=
  startTime <- Date_now ;;
  try_catch
    (delay 1000 ;;
     posts <- axios_get url ;;
     savedPosts <- savePosts posts [] ;;
     updateSubredditLastScraped subredditName ;;
     t <- Date_now ;;
     let duration := t - startTime in
     createScrapingLog subredditName scrapeType "success"
       (length posts) (length savedPosts) None (Some duration) ;;
     ret {| subreddit := subredditName;
            totalPosts := length posts;
            newPosts := length savedPosts;
            posts := savedPosts;
            duration := duration;
            timeframe := tf;
            error := None |})
    (fun error =>
       t <- Date_now ;;
       let duration := t - startTime in
       createScrapingLog subredditName scrapeType "error" 0 0
         (Some (message error)) (Some duration) ;;
       throw error).

Definition scrapeSubreddit (subredditName : string) (limit : Z) : M ScrapeResult :=
  scrapeListing (hot_url subredditName limit) "hot" None subredditName.

Definition getTopPosts (subredditName timeframe : string) (limit : Z)
  : M ScrapeResult :=
  scrapeListing (top_url subredditName timeframe limit)
    ("top_" ++ timeframe)%string (Some timeframe) subredditName.

Definition getNewPosts (subredditName : string) (limit : Z) : M ScrapeResult :=
  scrapeListing (new_url subredditName limit) "new" None subredditName.

Definition search_hit (post : Post.t) : SearchHit :=
  {| hit_id := Post.id post;
     hit_title := Post.title post;
     hit_author := js_or (Post.author post) (JStr "deleted");
     hit_subreddit := Post.subreddit post;
     hit_score := Post.score post;
     hit_url := Post.url post;
     hit_created_utc := Post.created_utc post;
     hit_num_comments := Post.num_comments post;
     hit_permalink := Post.permalink post |}.

Definition searchPosts (subredditName query : string) (limit : Z)
  : M (list SearchHit) :=
  try_catch
    (delay 1000 ;;
     posts <- axios_get (search_url subredditName query limit) ;;
     ret (map search_hit posts))
    (fun error => throw error).

(** The entry a batch pushes for a feed whose scrape threw. *)
Definition error_entry (subreddit : string) (tf : option string)
    (error : JsError) : ScrapeResult :=
  {| subreddit := subreddit;
     totalPosts := 0;
     newPosts := 0;
     posts := [];
     duration := 0;
     timeframe := tf;
     error := Some (message error) |}.

(** The loop [for (const subreddit of this.trackedSubreddits)] of the two
    manual batch methods, with the array [results] it pushes to. *)
Fixpoint batchLoop (scrape : string -> M ScrapeResult) (tf : option string)
    (subs : list string) (results : list ScrapeResult)
  : M (list ScrapeResult) :=
  match subs with
  | [] => ret results
  | subreddit :: rest =>
      results' <-
        try_catch
          (result <- scrape subreddit ;;
           delay 2000 ;;
           ret (results ++ [result]))
          (fun error => ret (results ++ [error_entry subreddit tf error])) ;;
      batchLoop scrape tf rest results'
  end.

Definition scrapeAllSubreddits : M BatchResult :=
  results <- batchLoop (fun s => scrapeSubreddit s 25) None trackedSubreddits [] ;;
  ret {| total := length results; batch_timeframe := None; results := results |}.

Definition scrapeTopPostsAllSubreddits (timeframe : string) : M BatchResult :=
  results <- batchLoop (fun s => getTopPosts s timeframe 50) (Some timeframe)
               trackedSubreddits [] ;;
  ret {| total := length results;
         batch_timeframe := Some timeframe;
         results := results |}.

(** The loop of the two cron methods: the outcome of a feed is dropped. *)
Fixpoint cronLoop (scrape : string -> M ScrapeResult) (subs : list string)
  : M unit :=
  match subs with
  | [] => ret tt
  | subreddit :: rest =>
      try_catch
        (scrape subreddit ;;
         delay 2000)   (* Extra delay between subreddits *)
        (fun error => ret tt) ;;
      cronLoop scrape rest
  end.

(** [@Cron(CronExpression.EVERY_HOUR)] *)
Definition scrapeAllSubredditsHourly : M unit :=
  cronLoop (fun s => scrapeSubreddit s 25) trackedSubreddits.

(** [@Cron(CronExpression.EVERY_6_HOURS)] *)
Definition scrapeTopPostsWeekly : M unit :=
  cronLoop (fun s => getTopPosts s "week" 50) trackedSubreddits.

End Services.

(* ------------------------------------------------------------------ *)
(** ** Reading the trace *)

(** The events performed between world [w] and a later world [w']. *)
Definition since (w w' : World) : list Event :=
  skipn (length (trace w)) (trace w').

(** The timers and HTTP requests of a run, without its database requests. *)
Definition timeline (evs : list Event) : list Event :=
  filter (fun ev => negb (is_db ev)) evs.

(** The URLs requested, in order. *)
Definition requested (evs : list Event) : list string :=
  flat_map (fun ev => match ev with EGet url => [url] | _ => [] end) evs.

(** The ids looked up in [reddit_posts], in order: one per [savePost]. *)
Definition selected (evs : list Event) : list string :=
  flat_map (fun ev => match ev with EDb (SelectPost i) _ => [i] | _ => [] end) evs.

Definition is_failure (ev : Event) : bool :=
  match ev with EDb _ false => true | _ => false end.

(** The database requests the store refused. *)
Definition failures (evs : list Event) : nat :=
  length (filter is_failure evs).

(** The stretches of a timeline that its HTTP requests delimit: what comes
    before the first request, between two consecutive requests, and after
    the last one. *)
Fixpoint stretches (cur : list Event) (evs : list Event) : list (list Event) :=
  match evs with
  | [] => [cur]
  | EGet _ :: rest => cur :: stretches [] rest
  | ev :: rest => stretches (cur ++ [ev]) rest
  end.

(** The stretches between two consecutive requests. *)
Definition between_requests (evs : list Event) : list (list Event) :=
  removelast (tl (stretches [] evs)).

Definition has_delay (ms : Z) (evs : list Event) : bool :=
  existsb (fun ev => match ev with EDelay d => d =? ms | _ => false end) evs.

(** The events a feed of a batch contributes to the timeline, given the
    entry the batch recorded for it. *)
Definition feed_timeline (url : string -> string) (r : ScrapeResult) : list Event :=
  [EDelay 1000; EGet (url (subreddit r))]
    ++ match error r with
       | None => [EDelay 2000]
       | Some _ => []
       end.

(** An entry of a batch result that records a failed feed. *)
Definition is_error_entry (r : ScrapeResult) : Prop :=
  error r <> None /\ totalPosts r = 0%nat /\ newPosts r = 0%nat /\ posts r = [].

(** The ids of the rows of [reddit_posts]. *)
Definition post_ids (w : World) : list string := map PostRow.post_id (reddit_posts w).

(* ------------------------------------------------------------------ *)
(** ** The single-feed scrape, by mode *)

(** The listing a single-feed scrape ingests. *)
Inductive Mode : Type :=
| Hot
| Top (timeframe : string)
| New.

(** The three ingesting methods of [RedditService], selected by mode. *)
Definition scrapeOne (env : Env) (mode : Mode) (subredditName : string)
    (limit : Z) : M ScrapeResult :=
  match mode with
  | Hot => scrapeSubreddit env subredditName limit
  | Top timeframe => getTopPosts env subredditName timeframe limit
  | New => getNewPosts env subredditName limit
  end.

(** The URL each of them requests. *)
Definition feed_url (mode : Mode) (subredditName : string) (limit : Z) : string :=
  match mode with
  | Hot => hot_url subredditName limit
  | Top timeframe => top_url subredditName timeframe limit
  | New => new_url subredditName limit
  end.

(** The [scrapeType] each of them logs. *)
Definition scrape_type (mode : Mode) : string :=
  match mode with
  | Hot => "hot"
  | Top timeframe => ("top_" ++ timeframe)%string
  | New => "new"
  end.

(* ------------------------------------------------------------------ *)
(** ** Vocabulary of the properties *)

(** [r'] is [r] with another [last_updated_at]. *)
Definition set_last_updated (now : Date) (r : PostRow.t) : PostRow.t :=
  {| PostRow.post_id := PostRow.post_id r;
     PostRow.title := PostRow.title r;
     PostRow.author := PostRow.author r;
     PostRow.subreddit := PostRow.subreddit r;
     PostRow.score := PostRow.score r;
     PostRow.upvote_ratio := PostRow.upvote_ratio r;
     PostRow.url := PostRow.url r;
     PostRow.created_utc := PostRow.created_utc r;
     PostRow.num_comments := PostRow.num_comments r;
     PostRow.selftext := PostRow.selftext r;
     PostRow.permalink := PostRow.permalink r;
     PostRow.thumbnail := PostRow.thumbnail r;
     PostRow.is_video := PostRow.is_video r;
     PostRow.domain := PostRow.domain r;
     PostRow.link_flair_text := PostRow.link_flair_text r;
     PostRow.last_updated_at := Some now |}.

(** The columns of an Item that are fixed at creation. *)
Definition same_identity (r r' : PostRow.t) : Prop :=
  PostRow.post_id r' = PostRow.post_id r /\
  PostRow.title r' = PostRow.title r /\
  PostRow.author r' = PostRow.author r /\
  PostRow.subreddit r' = PostRow.subreddit r /\
  PostRow.permalink r' = PostRow.permalink r /\
  PostRow.url r' = PostRow.url r /\
  PostRow.created_utc r' = PostRow.created_utc r /\
  PostRow.thumbnail r' = PostRow.thumbnail r /\
  PostRow.is_video r' = PostRow.is_video r /\
  PostRow.domain r' = PostRow.domain r /\
  PostRow.link_flair_text r' = PostRow.link_flair_text r.

(** The columns of an Item that a sight of [postData] at time [now] sets. *)
Definition refreshed (postData : Post.t) (now : Date) (r' : PostRow.t) : Prop :=
  PostRow.score r' = Post.score postData /\
  PostRow.num_comments r' = Post.num_comments postData /\
  PostRow.upvote_ratio r' = Post.upvote_ratio postData /\
  PostRow.selftext r' = Post.selftext postData /\
  PostRow.last_updated_at r' = Some now.

(** The mutable columns of a row already hold what [postData] carries. *)
Definition up_to_date (postData : Post.t) (r : PostRow.t) : Prop :=
  PostRow.score r = Post.score postData /\
  PostRow.num_comments r = Post.num_comments postData /\
  PostRow.upvote_ratio r = Post.upvote_ratio postData /\
  PostRow.selftext r = Post.selftext postData.

(** The entries of a batch over the feeds [subs], started in world [w]:
    every feed is scraped, in the world its predecessors left; when its
    scrape returns, the entry is the result and the batch waits 2000 ms;
    when it throws, the entry is the error entry of the thrown error, and
    the batch goes on with the next feed. *)
Inductive feeds_run (scrape : string -> M ScrapeResult) (tf : option string)
  : list string -> World -> list ScrapeResult -> World -> Prop :=
| feeds_done (w : World) :
    feeds_run scrape tf [] w [] w
| feed_returned (s : string) (rest : list string) (w w1 w' : World)
    (r : ScrapeResult) (rs : list ScrapeResult) :
    scrape s w = (Ok r, w1) ->
    feeds_run scrape tf rest (record_event (EDelay 2000) w1) rs w' ->
    feeds_run scrape tf (s :: rest) w (r :: rs) w'
| feed_threw (s : string) (rest : list string) (w w1 w' : World)
    (e : JsError) (rs : list ScrapeResult) :
    scrape s w = (Throw e, w1) ->
    feeds_run scrape tf rest w1 rs w' ->
    feeds_run scrape tf (s :: rest) w (error_entry s tf e :: rs) w'.

(** What a batch owes its caller: it returns, with one entry per tracked
    feed in the order of the list, each the outcome of the scrape of its
    feed; an entry either carries no error or is an error entry; and the
    entry of a feed whose listing at [url] cannot be fetched is an error
    entry. *)
Definition one_outcome_per_feed (env : Env) (scrape : string -> M ScrapeResult)
    (url : string -> string) (tf : option string)
    (batch : M BatchResult) (w : World) : Prop :=
  exists b w',
    batch w = (Ok b, w') /\
    total b = length trackedSubreddits /\
    map subreddit (results b) = trackedSubreddits /\
    feeds_run scrape tf trackedSubreddits w (results b) w' /\
    Forall (fun r => error r = None \/ is_error_entry r) (results b) /\
    Forall (fun r => (forall n, exists e, http env n (url (subreddit r)) = inl e) ->
                     is_error_entry r)
           (results b).

(* ------------------------------------------------------------------ *)
(** ** Concrete inputs *)

(** A listing child [{id, score, num_comments, created_utc: 1700000000}] of
    r/SaaS whose author, selftext and is_video are absent. *)
Definition sample_post (id : string) (score num_comments : Z) : Post.t :=
  {| Post.id := id;
     Post.title := JStr "Pricing page teardown";
     Post.author := JUndefined;
     Post.subreddit := JStr "SaaS";
     Post.score := JNum (inject_Z score);
     Post.upvote_ratio := JNum (97 # 100);
     Post.url := JStr "https://www.reddit.com/r/SaaS/comments/p1/";
     Post.created_utc := inject_Z 1700000000;
     Post.num_comments := JNum (inject_Z num_comments);
     Post.selftext := JNull;
     Post.permalink := JStr "/r/SaaS/comments/p1/";
     Post.thumbnail := JStr "self";
     Post.is_video := JUndefined;
     Post.domain := JStr "self.SaaS";
     Post.link_flair_text := JNull |}.

(** The empty store, before any effect. *)
Definition empty_world : World :=
  {| reddit_posts := []; post_snapshots := []; scraping_logs := [];
     subreddits := []; trace := [] |}.

(** A wall clock that advances 100 ms per effect. *)
Definition sample_clock (k : nat) : Z := 1700000000000 + 100 * Z.of_nat k.

(** The feed answers [{p1, score 10, 2 comments}] to the first request and
    [{p1, score 15, 3 comments}] to every later one; the store never fails. *)
Definition refetch_env : Env :=
  {| http := fun n _ =>
       match n with
       | O => inr [sample_post "p1" 10 2]
       | S _ => inr [sample_post "p1" 15 3]
       end;
     db_fault := fun _ _ => None;
     clock := sample_clock;
     encodeURIComponent := fun s => s |}.

(** The feed is unreachable; the store never fails. *)
Definition offline_env : Env :=
  {| http := fun _ _ => inl (mkError "Network Error");
     db_fault := fun _ _ => None;
     clock := sample_clock;
     encodeURIComponent := fun s => s |}.

(** The first request fails, every later one answers an empty listing; the
    store never fails. *)
Definition first_feed_down_env : Env :=
  {| http := fun n _ =>
       match n with
       | O => inl (mkError "Request failed with status code 503")
       | S _ => inr []
       end;
     db_fault := fun _ _ => None;
     clock := sample_clock;
     encodeURIComponent := fun s => s |}.


(** The store after the first scrape of r/SaaS under [refetch_env]: it holds
    p1 with score 10. *)
Definition world_with_p1 : World :=
  snd (scrapeSubreddit refetch_env "SaaS" 25 empty_world).

(* ------------------------------------------------------------------ *)
(** ** The first version of the two services *)

(** The services before run logging and upsert: [RedditService] with
    axios, which looks every id up and saves only the ids it does not
    find, wired to the [DatabaseService] whose [savePost] is a plain
    insert.  [getPostById] is the same in both versions. *)
Module Legacy.

(** What the scraping methods return: no [duration], no [error]. *)
Record Result : Type := mkResult {
  subreddit : string;
  timeframe : option string;
  totalPosts : nat;
  newPosts : nat;
  posts : list (list PostRow.t)
}.

(** The object the scraping methods build for a post they did not find:
    ten keys, the others absent. *)
Definition postData (post : Post.t) : Post.t :=
  {| Post.id := Post.id post;
     Post.title := Post.title post;
     Post.author := js_or (Post.author post) (JStr "deleted");
     Post.subreddit := Post.subreddit post;
     Post.score := Post.score post;
     Post.upvote_ratio := JUndefined;
     Post.url := Post.url post;
     Post.created_utc := Post.created_utc post;
     Post.num_comments := Post.num_comments post;
     Post.selftext := js_or (Post.selftext post) (JStr "");
     Post.permalink := Post.permalink post;
     Post.thumbnail := JUndefined;
     Post.is_video := JUndefined;
     Post.domain := JUndefined;
     Post.link_flair_text := JUndefined |}.

(** The object [savePost] inserts: ten columns, the others not sent. *)
Definition insert_row (postData : Post.t) : PostRow.t :=
  {| PostRow.post_id := Post.id postData;
     PostRow.title := Post.title postData;
     PostRow.author := Post.author postData;
     PostRow.subreddit := Post.subreddit postData;
     PostRow.score := Post.score postData;
     PostRow.upvote_ratio := JUndefined;
     PostRow.url := Post.url postData;
     PostRow.created_utc := new_Date (Post.created_utc postData * 1000);
     PostRow.num_comments := Post.num_comments postData;
     PostRow.selftext := Post.selftext postData;
     PostRow.permalink := Post.permalink postData;
     PostRow.thumbnail := JUndefined;
     PostRow.is_video := JUndefined;
     PostRow.domain := JUndefined;
     PostRow.link_flair_text := JUndefined;
     PostRow.last_updated_at := None |}.

Section Services.

Variable env : Env.

(** [DatabaseService.savePost]: insert, whatever the table holds. *)
Definition savePost (postData : Post.t) : M (list PostRow.t) :=
  db_request env (InsertPost (Post.id postData)) ;;
  modify (fun w => set_reddit_posts
                     (reddit_posts w ++ [insert_row postData]) w) ;;
  ret [insert_row postData].

(** The loop [for (const item of posts)] of the scraping methods. *)
Fixpoint savePosts (posts : list Post.t) (savedPosts : list (list PostRow.t))
  : M (list (list PostRow.t)) :=
  match posts with
  | [] => ret savedPosts
  | post :: rest =>
      existingPost <- getPostById env (Post.id post) ;;
      match existingPost with
      | None =>
          saved <- savePost (postData post) ;;
          savePosts rest (savedPosts ++ [saved])
      | Some _ => savePosts rest savedPosts
      end
  end.

(** The body [scrapeSubreddit], [getTopPosts] and [getNewPosts] share. *)
Definition scrapeListing (url : string) (tf : option string)
    (subredditName : string) : M Result :=
  try_catch
    (delay 1000 ;;
     posts <- axios_get env url ;;
     savedPosts <- savePosts posts [] ;;
     ret {| subreddit := subredditName;
            timeframe := tf;
            totalPosts := length posts;
            newPosts := length savedPosts;
            posts := savedPosts |})
    (fun error => throw error).

Definition scrapeSubreddit (subredditName : string) (limit : Z) : M Result :=
  scrapeListing (hot_url subredditName limit) None subredditName.

Definition getTopPosts (subredditName timeframe : string) (limit : Z) : M Result :=
  scrapeListing (top_url subredditName timeframe limit) (Some timeframe)
    subredditName.

Definition getNewPosts (subredditName : string) (limit : Z) : M Result :=
  scrapeListing (new_url subredditName limit) None subredditName.

End Services.

End Legacy.

(* ------------------------------------------------------------------ *)
(** ** Configuration *)

(** The variables of [process.env] that [configuration] reads; [None] is
    an unset variable. *)
Record ProcessEnv : Type := mkProcessEnv {
  REDDIT_CLIENT_ID : option string;
  REDDIT_CLIENT_SECRET : option string;
  REDDIT_USERNAME : option string;
  REDDIT_PASSWORD : option string;
  REDDIT_USER_AGENT : option string;
  SUPABASE_URL : option string;
  SUPABASE_ANON_KEY : option string
}.

(** The object [configuration()] returns, by the paths [ConfigService.get]
    is asked for. *)
Record Config : Type := mkConfig {
  reddit_clientId : option string;
  reddit_clientSecret : option string;
  reddit_username : option string;
  reddit_password : option string;
  reddit_userAgent : option string;
  supabase_url : option string;
  supabase_key : option string
}.

Definition configuration (penv : ProcessEnv) : Config :=
  {| reddit_clientId := REDDIT_CLIENT_ID penv;
     reddit_clientSecret := REDDIT_CLIENT_SECRET penv;
     reddit_username := REDDIT_USERNAME penv;
     reddit_password := REDDIT_PASSWORD penv;
     reddit_userAgent :=
       Some (str_or (REDDIT_USER_AGENT penv) "nodejs:reddit-scraper:v1.0.0");
     supabase_url := SUPABASE_URL penv;
     supabase_key := SUPABASE_ANON_KEY penv |}.

(** [!x] for an optional string: true for [undefined] and for [""]. *)
Definition js_not (x : option string) : bool :=
  match str_or_null x with
  | Some _ => false
  | None => true
  end.

(** The check of [RedditService.onModuleInit] (the snoowrap version): the
    error it throws, if any, before it builds the client. *)
Definition reddit_onModuleInit (config : Config) : option JsError :=
  if js_not (reddit_userAgent config) || js_not (reddit_clientId config)
     || js_not (reddit_clientSecret config) || js_not (reddit_username config)
     || js_not (reddit_password config)
  then Some (mkError "Reddit credentials are not properly configured")
  else None.

(* ------------------------------------------------------------------ *)
(** ** Vocabulary of the further properties *)

(** The columns of a row of [subreddits] that [updateSubredditLastScraped]
    leaves alone. *)
Definition same_feed (s s' : Sub.t) : Prop :=
  Sub.name s' = Sub.name s /\
  Sub.display_name s' = Sub.display_name s /\
  Sub.description s' = Sub.description s /\
  Sub.is_active s' = Sub.is_active s.

(** A log row that tells what the result entry of its feed tells. *)
Definition log_agrees (r : ScrapeResult) (row : Log.t) : Prop :=
  Log.subreddit row = subreddit r /\
  Log.status row = match error r with
                   | None => "success"
                   | Some _ => "error"
                   end /\
  Log.posts_found row = totalPosts r /\
  Log.posts_saved row = newPosts r.

(** Whether an id is among the rows. *)
Definition known (rows : list PostRow.t) (id : string) : bool :=
  existsb (has_id id) rows.

(** The posts of a listing whose id the rows do not hold. *)
Definition unknown_posts (rows : list PostRow.t) (items : list Post.t)
  : list Post.t :=
  filter (fun post => negb (known rows (Post.id post))) items.

(** The feed answers three new posts; the store refuses the update of
    table [subreddits], and nothing else. *)
Definition touch_refused_env : Env :=
  {| http := fun _ _ =>
       inr [sample_post "a1" 1 0; sample_post "a2" 2 0; sample_post "a3" 3 0];
     db_fault := fun _ op =>
       match op with
       | UpdateSubreddit _ => Some (mkError "permission denied for table subreddits")
       | _ => None
       end;
     clock := sample_clock;
     encodeURIComponent := fun s => s |}.


(** A listing child of a post whose account was deleted: the feed sends
    the author ["[deleted]"]. *)
Definition deleted_author_post : Post.t :=
  {| Post.id := "d1";
     Post.title := JStr "Pricing page teardown";
     Post.author := JStr "[deleted]";
     Post.subreddit := JStr "SaaS";
     Post.score := JNum (inject_Z 4);
     Post.upvote_ratio := JNum (97 # 100);
     Post.url := JStr "https://www.reddit.com/r/SaaS/comments/d1/";
     Post.created_utc := inject_Z 1700000000;
     Post.num_comments := JNum (inject_Z 1);
     Post.selftext := JStr "[deleted]";
     Post.permalink := JStr "/r/SaaS/comments/d1/";
     Post.thumbnail := JStr "self";
     Post.is_video := JBool false;
     Post.domain := JStr "self.SaaS";
     Post.link_flair_text := JNull |}.

(** A row of table [subreddits], tracked and never scraped. *)
Definition sample_sub (name : string) : Sub.t :=
  {| Sub.name := name;
     Sub.display_name := name;
     Sub.description := None;
     Sub.is_active := true;
     Sub.last_scraped_at := None |}.

(* ------------------------------------------------------------------ *)
(** * Properties *)

(** ** Tactics for running the monad *)

Ltac unfold_m :=
  unfold Date_now, delay, db_request, axios_get in *;
  unfold try_catch, bind, gets, modify, ret, throw in *;
  cbv beta iota in *.

Ltac case_fault :=
  match goal with
  | |- context [match db_fault ?e ?n ?o with _ => _ end] =>
      let F := fresh "Hfault" in destruct (db_fault e n o) eqn:F
  end.

(** ** Reading the trace: algebra *)

Lemma since_app (w w' : World) (evs : list Event) :
  trace w' = trace w ++ evs -> since w w' = evs.
Proof.
  intros H. unfold since. rewrite H.
  rewrite skipn_app, skipn_all, Nat.sub_diag. reflexivity.
Qed.

Lemma timeline_app (a b : list Event) :
  timeline (a ++ b) = timeline a ++ timeline b.
Proof. apply filter_app. Qed.

Lemma requested_app (a b : list Event) :
  requested (a ++ b) = requested a ++ requested b.
Proof. apply flat_map_app. Qed.

Lemma selected_app (a b : list Event) :
  selected (a ++ b) = selected a ++ selected b.
Proof. apply flat_map_app. Qed.

Lemma failures_app (a b : list Event) :
  failures (a ++ b) = (failures a + failures b)%nat.
Proof. unfold failures. rewrite filter_app, length_app. reflexivity. Qed.

Lemma requested_timeline (evs : list Event) :
  requested (timeline evs) = requested evs.
Proof.
  induction evs as [|ev evs IH]; [reflexivity|].
  destruct ev; simpl; rewrite ?IH; reflexivity.
Qed.

(** ** DatabaseService.savePost and updatePost *)

(** [savePost] writes to no table but [reddit_posts]. *)
Lemma savePost_frame (env : Env) (pd : Post.t) (w : World) :
  post_snapshots (snd (savePost env pd w)) = post_snapshots w /\
  scraping_logs (snd (savePost env pd w)) = scraping_logs w /\
  subreddits (snd (savePost env pd w)) = subreddits w.
Proof.
  unfold savePost, getPostById, updatePost. unfold_m.
  case_fault; simpl; auto.
  destruct (single _); simpl; repeat case_fault; simpl; auto.
Qed.

(** [savePost] looks the id up once, issues only database requests, and is
    refused at most one of them: exactly one when it throws. *)
Lemma savePost_trace (env : Env) (pd : Post.t) (w : World) :
  exists evs,
    trace (snd (savePost env pd w)) = trace w ++ evs /\
    timeline evs = [] /\
    selected evs = [Post.id pd] /\
    failures evs = match fst (savePost env pd w) with
                   | Ok _ => 0%nat
                   | Throw _ => 1%nat
                   end.
Proof.
  unfold savePost, getPostById, updatePost. unfold_m.
  case_fault; simpl.
  - eexists [_]. repeat split.
  - destruct (single _); simpl; case_fault; simpl;
      rewrite <- app_assoc; eexists [_; _]; repeat split.
Qed.

(** When [savePost] throws, table [reddit_posts] has not changed. *)
Lemma savePost_throw (env : Env) (pd : Post.t) (w w' : World) (e : JsError) :
  savePost env pd w = (Throw e, w') -> reddit_posts w' = reddit_posts w.
Proof.
  unfold savePost, getPostById, updatePost. unfold_m.
  case_fault; simpl.
  - intros H; inversion H; reflexivity.
  - destruct (single _); simpl; case_fault; simpl;
      intros H; inversion H; reflexivity.
Qed.

(** The two successful paths of [savePost]: the id is found by
    [getPostById] and the row is updated, or it is not and a row is
    inserted. *)
Lemma savePost_ok (env : Env) (pd : Post.t) (w w' : World) (data : list PostRow.t) :
  savePost env pd w = (Ok data, w') ->
  match single (filter (has_id (Post.id pd)) (reddit_posts w)) with
  | Some _ =>
      exists now,
        reddit_posts w' = update_posts pd now (reddit_posts w) /\
        data = filter (has_id (Post.id pd)) (reddit_posts w') /\
        now = clock env (S (length (trace w)))
  | None =>
      reddit_posts w' = reddit_posts w ++ [insert_row pd] /\
      data = [insert_row pd]
  end.
Proof.
  unfold savePost, getPostById, updatePost. unfold_m.
  case_fault; simpl; [discriminate|].
  destruct (single _); simpl; case_fault; simpl; try discriminate;
    intros H; inversion H; subst; simpl.
  - eexists; repeat split. rewrite length_app, Nat.add_comm. reflexivity.
  - split; reflexivity.
Qed.

(** ** The item loop of a scrape *)

Lemma formatPostData_id (post : Post.t) :
  Post.id (formatPostData post) = Post.id post.
Proof. reflexivity. Qed.

(** The loop never throws.  It attempts every item, in order; it issues only
    database requests, on table [reddit_posts]; and every item is either
    pushed to [savedPosts] or was refused a request by the store. *)
Lemma savePosts_run (env : Env) (posts : list Post.t) :
  forall (acc : list (list PostRow.t)) (w : World),
  exists new evs w',
    savePosts env posts acc w = (Ok (acc ++ new), w') /\
    trace w' = trace w ++ evs /\
    timeline evs = [] /\
    selected evs = map Post.id posts /\
    (length new + failures evs = length posts)%nat /\
    post_snapshots w' = post_snapshots w /\
    scraping_logs w' = scraping_logs w /\
    subreddits w' = subreddits w.
Proof.
  induction posts as [|post rest IH]; intros acc w.
  - exists [], [], w. simpl. rewrite !app_nil_r. unfold ret. repeat split.
  - cbn [savePosts]. unfold bind at 1, try_catch at 1, bind at 1.
    destruct (savePost_trace env (formatPostData post) w)
      as (evs1 & Ht1 & Htl1 & Hsel1 & Hf1).
    destruct (savePost_frame env (formatPostData post) w) as (Hs1 & Hl1 & Hb1).
    destruct (savePost env (formatPostData post) w) as [[data|e] w1];
      simpl in Ht1, Hf1, Hs1, Hl1, Hb1; unfold ret at 1, truthy_rows;
      cbv iota.
    + destruct (IH (acc ++ [data]) w1)
        as (new & evs & w' & Hrun & Ht & Htl & Hsel & Hlen & Hs & Hl & Hb).
      exists (data :: new), (evs1 ++ evs), w'.
      rewrite Hrun, Ht, Ht1, <- !app_assoc.
      rewrite timeline_app, selected_app, failures_app, Htl1, Htl, Hsel1, Hsel, Hf1.
      simpl. repeat split; try congruence; lia.
    + destruct (IH acc w1)
        as (new & evs & w' & Hrun & Ht & Htl & Hsel & Hlen & Hs & Hl & Hb).
      exists new, (evs1 ++ evs), w'.
      rewrite Hrun, Ht, Ht1, <- !app_assoc.
      rewrite timeline_app, selected_app, failures_app, Htl1, Htl, Hsel1, Hsel, Hf1.
      simpl. repeat split; try congruence; lia.
Qed.

(** ** A single-feed scrape *)

Lemma http_no_record_delay (ms : Z) (w : World) :
  http_no (record_event (EDelay ms) w) = http_no w.
Proof.
  unfold http_no. simpl. rewrite filter_app. simpl. apply f_equal, app_nil_r.
Qed.

(** Opens [scrapeListing] up to the outcome of the HTTP request. *)
Ltac open_listing :=
  unfold scrapeListing, updateSubredditLastScraped, createScrapingLog;
  unfold_m; rewrite http_no_record_delay.

(** Runs the item loop of an opened [scrapeListing]. *)
Ltac run_loop env posts w new evs w1 Ht Htl Hsel Hlen Hs Hl Hb :=
  let Hrun := fresh "Hrun" in
  destruct (savePosts_run env posts [] w)
    as (new & evs & w1 & Hrun & Ht & Htl & Hsel & Hlen & Hs & Hl & Hb);
  rewrite Hrun; simpl in Hrun, Ht; cbn [app].

(** The timers and requests of a single-feed scrape are one wait of 1000 ms
    and then one HTTP request, whatever the outcome. *)
Lemma scrapeListing_timeline (env : Env) (url ty : string) (tf : option string)
    (name : string) (w : World) :
  exists evs,
    trace (snd (scrapeListing env url ty tf name w)) = trace w ++ evs /\
    timeline evs = [EDelay 1000; EGet url].
Proof.
  open_listing.
  destruct (http env (http_no w) url) as [e|posts].
  - case_fault; simpl; rewrite <- !app_assoc; eexists; split; reflexivity.
  - run_loop env posts (record_event (EGet url) (record_event (EDelay 1000) w))
      new evs w1 Ht Htl Hsel Hlen Hs Hl Hb.
    repeat case_fault; simpl; rewrite Ht, <- !app_assoc;
      (eexists; split; [reflexivity|]);
      simpl; rewrite timeline_app, Htl; reflexivity.
Qed.

(** A result a single-feed scrape returns names its feed and carries no
    error; and a scrape whose HTTP request fails throws. *)
Lemma scrapeListing_result (env : Env) (url ty : string) (tf : option string)
    (name : string) (w : World) :
  match fst (scrapeListing env url ty tf name w) with
  | Ok r => subreddit r = name /\ error r = None /\ timeframe r = tf /\
            exists posts, http env (http_no w) url = inr posts /\
                          totalPosts r = length posts
  | Throw _ => True
  end.
Proof.
  open_listing.
  destruct (http env (http_no w) url) as [e|posts].
  - case_fault; simpl; exact I.
  - run_loop env posts (record_event (EGet url) (record_event (EDelay 1000) w))
      new evs w1 Ht Htl Hsel Hlen Hs Hl Hb.
    repeat case_fault; simpl; try exact I.
    repeat split. exists posts. split; reflexivity.
Qed.

(** When the store accepts the log rows, a single-feed scrape appends
    exactly one row to [scraping_logs], on every path. *)
Lemma scrapeListing_logged (env : Env) (url ty : string) (tf : option string)
    (name : string) (w : World) :
  (forall n, db_fault env n (InsertLog name) = None) ->
  exists row,
    scraping_logs (snd (scrapeListing env url ty tf name w))
      = scraping_logs w ++ [row] /\
    Log.subreddit row = name /\
    Log.scrape_type row = ty /\
    match fst (scrapeListing env url ty tf name w) with
    | Ok r =>
        Log.status row = "success" /\
        Log.posts_found row = totalPosts r /\
        Log.posts_saved row = newPosts r /\
        Log.error_message row = None
    | Throw e =>
        Log.status row = "error" /\
        Log.posts_found row = 0%nat /\
        Log.posts_saved row = 0%nat /\
        Log.error_message row = str_or_null (Some (message e))
    end /\
    (forall e, http env (http_no w) url = inl e ->
               fst (scrapeListing env url ty tf name w) = Throw e).
Proof.
  intros Hlog. open_listing.
  destruct (http env (http_no w) url) as [e|posts].
  - rewrite Hlog. simpl. eexists. split; [reflexivity|].
    repeat split. intros e' H; inversion H; reflexivity.
  - run_loop env posts (record_event (EGet url) (record_event (EDelay 1000) w))
      new evs w1 Ht Htl Hsel Hlen Hs Hl Hb.
    case_fault; rewrite !Hlog; simpl; rewrite Hl; simpl;
      (eexists; split; [reflexivity|]); repeat split; intros e' H; discriminate.
Qed.

(** A scrape whose HTTP request fails throws: the error of the request, or
    the error of the store when it refuses the log row. *)
Lemma scrapeListing_fetch_fails (env : Env) (url ty : string) (tf : option string)
    (name : string) (w : World) (e : JsError) :
  http env (http_no w) url = inl e ->
  exists e', fst (scrapeListing env url ty tf name w) = Throw e'.
Proof.
  intros Hh. open_listing. rewrite Hh.
  case_fault; simpl; eexists; reflexivity.
Qed.


(** ** The batch loops *)

Section Batch.

Variable scrape : string -> M ScrapeResult.
Variable url : string -> string.
Variable tf : option string.
Variable fails : string -> Prop.

Hypothesis scrape_timeline :
  forall s w, exists evs,
    trace (snd (scrape s w)) = trace w ++ evs /\
    timeline evs = [EDelay 1000; EGet (url s)].

Hypothesis scrape_result :
  forall s w,
    match fst (scrape s w) with
    | Ok r => subreddit r = s /\ error r = None
    | Throw _ => True
    end.

Hypothesis scrape_fails :
  forall s w, fails s -> exists e, fst (scrape s w) = Throw e.

Lemma error_entry_is_error (s : string) (e : JsError) :
  is_error_entry (error_entry s tf e).
Proof. repeat split. discriminate. Qed.

(** The manual loop never throws; it pushes one entry per feed, in the
    order of the list; the entry of a failing feed is an error entry; and
    the loop waits 2000 ms after each feed that did not throw. *)
Lemma batchLoop_run (subs : list string) :
  forall (acc : list ScrapeResult) (w : World),
  exists new evs w',
    batchLoop scrape tf subs acc w = (Ok (acc ++ new), w') /\
    map subreddit new = subs /\
    feeds_run scrape tf subs w new w' /\
    Forall (fun r => error r = None \/ is_error_entry r) new /\
    Forall (fun r => fails (subreddit r) -> is_error_entry r) new /\
    trace w' = trace w ++ evs /\
    timeline evs = flat_map (feed_timeline url) new.
Proof.
  induction subs as [|s rest IH]; intros acc w.
  - exists [], [], w. simpl. rewrite !app_nil_r. repeat split; constructor.
  - cbn [batchLoop]. unfold bind at 1, try_catch at 1, bind at 1.
    destruct (scrape_timeline s w) as (evs1 & Ht1 & Htl1).
    pose proof (scrape_result s w) as Hres.
    pose proof (@scrape_fails s w) as Hfail.
    destruct (scrape s w) as [[r|e] w1] eqn:Hscrape; simpl in Ht1, Hres, Hfail.
    + destruct Hres as [Hname Herr].
      unfold bind at 1, delay at 1, modify at 1, ret at 1.
      destruct (IH (acc ++ [r]) (record_event (EDelay 2000) w1))
        as (new & evs & w' & Hrun & Hmap & Hfeeds & Hall & Hbad & Ht & Htl).
      exists (r :: new), (evs1 ++ [EDelay 2000] ++ evs), w'.
      rewrite Hrun, <- app_assoc. simpl in Ht. rewrite Ht, Ht1, <- !app_assoc.
      repeat split.
      * simpl. congruence.
      * eapply feed_returned; eassumption.
      * constructor; [left; assumption | assumption].
      * constructor; [| assumption].
        intros Hf. rewrite Hname in Hf.
        destruct (Hfail Hf) as [e He]. discriminate.
      * rewrite !timeline_app, Htl1, Htl. simpl.
        unfold feed_timeline at 1. rewrite Hname, Herr. reflexivity.
    + unfold ret at 1.
      destruct (IH (acc ++ [error_entry s tf e]) w1)
        as (new & evs & w' & Hrun & Hmap & Hfeeds & Hall & Hbad & Ht & Htl).
      exists (error_entry s tf e :: new), (evs1 ++ evs), w'.
      rewrite Hrun, <- app_assoc, Ht, Ht1, <- !app_assoc.
      repeat split.
      * simpl. congruence.
      * eapply feed_threw; eassumption.
      * constructor; [right; apply error_entry_is_error | assumption].
      * constructor; [intros _; apply error_entry_is_error | assumption].
      * rewrite !timeline_app, Htl1, Htl. reflexivity.
Qed.

(** The cron loop never throws, and requests the listing of every feed
    of the list, in the order of the list. *)
Lemma cronLoop_run (subs : list string) :
  forall (w : World),
  exists evs w',
    cronLoop scrape subs w = (Ok tt, w') /\
    trace w' = trace w ++ evs /\
    requested evs = map url subs.
Proof.
  induction subs as [|s rest IH]; intros w.
  - exists [], w. simpl. rewrite app_nil_r. repeat split.
  - cbn [cronLoop]. unfold bind at 1, try_catch at 1, bind at 1.
    destruct (scrape_timeline s w) as (evs1 & Ht1 & Htl1).
    assert (Hreq1 : requested evs1 = [url s])
      by (rewrite <- requested_timeline, Htl1; reflexivity).
    destruct (scrape s w) as [[r|e] w1]; simpl in Ht1.
    + unfold delay at 1, modify at 1.
      destruct (IH (record_event (EDelay 2000) w1)) as (evs & w' & Hrun & Ht & Hreq).
      exists (evs1 ++ [EDelay 2000] ++ evs), w'.
      rewrite Hrun. simpl in Ht. rewrite Ht, Ht1, <- !app_assoc.
      repeat split. rewrite !requested_app, Hreq1, Hreq. reflexivity.
    + unfold ret at 1.
      destruct (IH w1) as (evs & w' & Hrun & Ht & Hreq).
      exists (evs1 ++ evs), w'.
      rewrite Hrun, Ht, Ht1, <- !app_assoc.
      repeat split. rewrite !requested_app, Hreq1, Hreq. reflexivity.
Qed.

End Batch.

(** ** Normalization *)

(** A truthy field passes through [formatPostData] unchanged: in particular
    an author string the feed sends, whatever it spells. *)
Lemma formatPostData_author_kept (post : Post.t) :
  truthy (Post.author post) = true ->
  Post.author (formatPostData post) = Post.author post.
Proof. intros H. simpl. unfold js_or. rewrite H. reflexivity. Qed.

(** C8, as the code has it.  Normalization maps an author that is missing
    (absent, null or the empty string) to the placeholder "deleted", and
    keeps every non-empty author string as the feed sends it, the marker
    "[deleted]" of a deleted account included; it maps a missing body text
    to the empty string, and a missing is_video to false. *)
Theorem formatPostData_defaults (post : Post.t) :
  (missing (Post.author post) \/ Post.author post = JStr "" ->
   Post.author (formatPostData post) = JStr "deleted") /\
  (forall s, s <> "" -> Post.author post = JStr s ->
   Post.author (formatPostData post) = JStr s) /\
  (missing (Post.selftext post) ->
   Post.selftext (formatPostData post) = JStr "") /\
  (missing (Post.is_video post) ->
   Post.is_video (formatPostData post) = JBool false).
Proof.
  unfold missing. simpl. repeat split.
  - intros [[H|H]|H]; rewrite H; reflexivity.
  - intros s Hs H. rewrite H. unfold js_or. simpl.
    apply String.eqb_neq in Hs. rewrite Hs. reflexivity.
  - intros [H|H]; rewrite H; reflexivity.
  - intros [H|H]; rewrite H; reflexivity.
Qed.

Lemma formatPostData_defaults_witness :
  Post.author (formatPostData (sample_post "p1" 10 2)) = JStr "deleted" /\
  Post.author (formatPostData deleted_author_post) = JStr "[deleted]" /\
  Post.selftext (formatPostData (sample_post "p1" 10 2)) = JStr "" /\
  Post.is_video (formatPostData (sample_post "p1" 10 2)) = JBool false.
Proof.
  destruct (formatPostData_defaults (sample_post "p1" 10 2))
    as (Ha & _ & Hs & Hv).
  destruct (formatPostData_defaults deleted_author_post) as (_ & Hk & _ & _).
  split; [|split; [|split]].
  - apply Ha. left. left. reflexivity.
  - apply (Hk "[deleted]"); [discriminate | reflexivity].
  - apply Hs. right. reflexivity.
  - apply Hv. left. reflexivity.
Defined.

(** C8 as stated fails for a deleted author: the feed sends the author
    "[deleted]", and normalization keeps it, where the claim has the
    placeholder "deleted". *)
Lemma formatPostData_keeps_deleted_marker :
  Post.author deleted_author_post = JStr "[deleted]" /\
  Post.author (formatPostData deleted_author_post) = JStr "[deleted]" /\
  Post.author (formatPostData deleted_author_post) <> JStr "deleted".
Proof.
  vm_compute. repeat split. discriminate.
Qed.

(** ** Create or update *)

(** C1. At a store that holds p1 with score 10, ingesting p1 with score 15
    and 3 comments succeeds and updates the row, and [post_snapshots] is as
    it was: the update path appends no Snapshot. *)
Theorem savePost_update_appends_no_snapshot :
  exists row w',
    In "p1" (post_ids world_with_p1) /\
    savePost refetch_env (formatPostData (sample_post "p1" 15 3)) world_with_p1
      = (Ok [row], w') /\
    reddit_posts w' = [row] /\
    PostRow.score row = JNum (inject_Z 15) /\
    PostRow.num_comments row = JNum (inject_Z 3) /\
    post_snapshots world_with_p1 = [] /\
    post_snapshots w' = [].
Proof.
  do 2 eexists. vm_compute. repeat split. left. reflexivity.
Qed.

(** No path of [savePost] writes to [post_snapshots]: not the create path,
    and not the update path either. *)
Lemma savePost_never_snapshots (env : Env) (pd : Post.t) (w : World) :
  post_snapshots (snd (savePost env pd w)) = post_snapshots w.
Proof. apply savePost_frame. Qed.

(** C2. At a store that already holds p1, a scrape whose listing is p1 alone
    reports it as a new post: [newPosts] is 1 and the updated row is in
    [posts]. *)
Theorem scrape_counts_known_item_as_new :
  exists r row w',
    In "p1" (post_ids world_with_p1) /\
    scrapeSubreddit refetch_env "SaaS" 25 world_with_p1 = (Ok r, w') /\
    failures (since world_with_p1 w') = 0%nat /\
    totalPosts r = 1%nat /\
    newPosts r = 1%nat /\
    posts r = [[row]] /\
    PostRow.post_id row = "p1" /\
    PostRow.last_updated_at row <> None.
Proof.
  do 3 eexists. vm_compute. repeat split. left. reflexivity. discriminate.
Qed.

(** ** One Item per id *)

Lemma has_id_true (id : string) (r : PostRow.t) :
  has_id id r = true <-> PostRow.post_id r = id.
Proof. unfold has_id. apply String.eqb_eq. Qed.

Lemma has_id_false (id : string) (r : PostRow.t) :
  has_id id r = false <-> PostRow.post_id r <> id.
Proof. unfold has_id. apply String.eqb_neq. Qed.

Lemma filter_has_id_absent (id : string) (rows : list PostRow.t) :
  ~ In id (map PostRow.post_id rows) -> filter (has_id id) rows = [].
Proof.
  induction rows as [|r rows IH]; simpl; intros H; [reflexivity|].
  destruct (has_id id r) eqn:E.
  - apply has_id_true in E. tauto.
  - apply IH. tauto.
Qed.

(** In a table with one row per id, the rows with a given id are the one
    row that has it. *)
Lemma filter_has_id_present (id : string) (rows : list PostRow.t) (r : PostRow.t) :
  NoDup (map PostRow.post_id rows) -> In r rows -> PostRow.post_id r = id ->
  filter (has_id id) rows = [r].
Proof.
  induction rows as [|r0 rows IH]; simpl; intros Hnd Hin Hid; [contradiction|].
  inversion Hnd as [|x l Hnotin Hnd']; subst x l.
  destruct Hin as [->|Hin].
  - apply has_id_true in Hid as Hb. rewrite Hb. f_equal.
    apply filter_has_id_absent. rewrite <- Hid. assumption.
  - destruct (has_id id r0) eqn:E.
    + apply has_id_true in E. exfalso. apply Hnotin.
      rewrite E, <- Hid. apply in_map. assumption.
    + apply IH; assumption.
Qed.

Lemma single_filter_none (id : string) (rows : list PostRow.t) :
  NoDup (map PostRow.post_id rows) ->
  single (filter (has_id id) rows) = None ->
  ~ In id (map PostRow.post_id rows).
Proof.
  intros Hnd Hs Hin. apply in_map_iff in Hin as (r & Hid & Hin).
  rewrite (@filter_has_id_present id rows r Hnd Hin Hid) in Hs. discriminate.
Qed.

Lemma single_filter_some (id : string) (rows : list PostRow.t) (r : PostRow.t) :
  single (filter (has_id id) rows) = Some r ->
  In r rows /\ PostRow.post_id r = id.
Proof.
  intros Hs.
  assert (Hin : In r (filter (has_id id) rows)).
  { destruct (filter (has_id id) rows) as [|a [|b l]]; try discriminate.
    inversion Hs. left. reflexivity. }
  apply filter_In in Hin as [Hin Hb]. split; [assumption|].
  apply has_id_true. assumption.
Qed.

Lemma update_posts_ids (pd : Post.t) (now : Date) (rows : list PostRow.t) :
  map PostRow.post_id (update_posts pd now rows) = map PostRow.post_id rows.
Proof.
  unfold update_posts. rewrite map_map. apply map_ext.
  intros r. destruct (has_id (Post.id pd) r); reflexivity.
Qed.

Lemma update_posts_filter (pd : Post.t) (now : Date) (rows : list PostRow.t) :
  filter (has_id (Post.id pd)) (update_posts pd now rows)
  = map (update_row pd now) (filter (has_id (Post.id pd)) rows).
Proof.
  induction rows as [|r rows IH]; [reflexivity|]. simpl.
  destruct (has_id (Post.id pd) r) eqn:E; simpl.
  - unfold has_id in *. simpl. rewrite E. simpl. f_equal. apply IH.
  - rewrite E. apply IH.
Qed.

Lemma Forall2_map_in {A B : Type} (P : A -> B -> Prop) (f : A -> B) (l : list A) :
  (forall a, In a l -> P a (f a)) -> Forall2 P l (map f l).
Proof.
  induction l as [|a l IH]; intros H; simpl; constructor.
  - apply H. left. reflexivity.
  - apply IH. intros b Hb. apply H. right. assumption.
Qed.

Lemma update_row_identity (pd : Post.t) (now : Date) (r : PostRow.t) :
  same_identity r (update_row pd now r).
Proof. repeat split. Qed.

Lemma update_row_refreshed (pd : Post.t) (now : Date) (r : PostRow.t) :
  refreshed pd now (update_row pd now r).
Proof. repeat split. Qed.

Lemma same_identity_refl (r : PostRow.t) : same_identity r r.
Proof. repeat split. Qed.

(** C7. In a store with one row per id, [savePost] keeps one row per id.
    The first sight of an id appends the new Item and touches nothing else;
    a later sight adds no row, leaves the rows of other ids as they are,
    and in the row of that id leaves the identity columns (post_id, title,
    author, subreddit, permalink, url, created_utc, and the other columns
    fixed at creation) unchanged, writing only score, num_comments,
    upvote_ratio, selftext and last_updated_at. *)
Theorem one_item_per_id (env : Env) (pd : Post.t) (w w' : World)
    (res : Res (list PostRow.t)) :
  NoDup (post_ids w) ->
  savePost env pd w = (res, w') ->
  NoDup (post_ids w') /\
  match res with
  | Throw _ => reddit_posts w' = reddit_posts w
  | Ok data =>
      (~ In (Post.id pd) (post_ids w) ->
       reddit_posts w' = reddit_posts w ++ [insert_row pd] /\
       data = [insert_row pd]) /\
      (In (Post.id pd) (post_ids w) ->
       post_ids w' = post_ids w /\
       Forall2
         (fun r r' =>
            same_identity r r' /\
            (PostRow.post_id r = Post.id pd ->
             refreshed pd (clock env (S (length (trace w)))) r' /\ data = [r']) /\
            (PostRow.post_id r <> Post.id pd -> r' = r))
         (reddit_posts w) (reddit_posts w'))
  end.
Proof.
  unfold post_ids. intros Hnd Hrun. destruct res as [data|e].
  - apply savePost_ok in Hrun.
    destruct (single (filter (has_id (Post.id pd)) (reddit_posts w)))
      as [r0|] eqn:Hs.
    + destruct Hrun as (now & Hposts & Hdata & Hnow).
      apply single_filter_some in Hs as [Hin0 Hid0].
      rewrite Hposts, update_posts_ids. split; [assumption|]. split.
      * intros Hnot. exfalso. apply Hnot. rewrite <- Hid0.
        apply in_map. assumption.
      * intros _. split; [reflexivity|].
        apply Forall2_map_in. intros r Hin.
        destruct (has_id (Post.id pd) r) eqn:E.
        -- apply has_id_true in E. repeat split.
           ++ rewrite <- Hnow. apply update_row_refreshed.
           ++ rewrite Hdata, Hposts, update_posts_filter.
              rewrite (@filter_has_id_present _ _ r Hnd Hin E). reflexivity.
           ++ intros Hne. contradiction.
        -- apply has_id_false in E. split; [apply same_identity_refl|].
           split; [intros Heq; contradiction | reflexivity].
    + destruct Hrun as [Hposts Hdata].
      pose proof (@single_filter_none _ _ Hnd Hs) as Hnot.
      rewrite Hposts, map_app. simpl. split.
      * apply NoDup_app; [assumption | repeat constructor; simpl; tauto |].
        intros x Hx [Hx'|[]]. subst x. contradiction.
      * split; [intros _; split; [reflexivity | assumption]|].
        intros Hin. contradiction.
  - apply savePost_throw in Hrun. rewrite Hrun. split; [assumption | reflexivity].
Qed.

Lemma one_item_per_id_witness :
  NoDup (post_ids world_with_p1) /\
  In "p1" (post_ids world_with_p1) /\
  post_ids (snd (savePost refetch_env (formatPostData (sample_post "p1" 15 3))
                   world_with_p1))
  = post_ids world_with_p1.
Proof.
  assert (Hnd : NoDup (post_ids world_with_p1)).
  { vm_compute. constructor; [intros [] | constructor]. }
  assert (Hin : In "p1" (post_ids world_with_p1)).
  { vm_compute. left. reflexivity. }
  split; [exact Hnd|]. split; [exact Hin|].
  pose proof
    (@one_item_per_id refetch_env (formatPostData (sample_post "p1" 15 3))
       world_with_p1 _ _ Hnd (surjective_pairing _)) as [_ H].
  destruct (fst (savePost refetch_env (formatPostData (sample_post "p1" 15 3))
                   world_with_p1)) eqn:E.
  - destruct H as [_ H]. apply H. exact Hin.
  - vm_compute in E. discriminate.
Defined.

(** ** Repeated sight of an unchanged item *)

Lemma update_row_up_to_date (pd : Post.t) (now : Date) (r : PostRow.t) :
  up_to_date pd r -> update_row pd now r = set_last_updated now r.
Proof.
  intros (H1 & H2 & H3 & H4). unfold update_row, set_last_updated.
  rewrite H1, H2, H3, H4. reflexivity.
Qed.

(** After a successful [savePost] in a store with one row per id, the id is
    in the store, once, and its row holds what was saved. *)
Lemma savePost_ok_state (env : Env) (pd : Post.t) (w w' : World)
    (data : list PostRow.t) :
  NoDup (post_ids w) ->
  savePost env pd w = (Ok data, w') ->
  NoDup (post_ids w') /\
  (exists r, data = [r] /\
             filter (has_id (Post.id pd)) (reddit_posts w') = [r]) /\
  (forall r, In r (reddit_posts w') -> has_id (Post.id pd) r = true ->
             up_to_date pd r).
Proof.
  unfold post_ids. intros Hnd Hrun. apply savePost_ok in Hrun.
  destruct (single (filter (has_id (Post.id pd)) (reddit_posts w)))
    as [r0|] eqn:Hs.
  - destruct Hrun as (now & Hposts & Hdata & _).
    apply single_filter_some in Hs as [Hin0 Hid0].
    rewrite Hposts, update_posts_ids. split; [assumption|]. split.
    + exists (update_row pd now r0).
      rewrite Hdata, Hposts, update_posts_filter.
      rewrite (@filter_has_id_present _ _ r0 Hnd Hin0 Hid0). split; reflexivity.
    + intros r Hin Hb. unfold update_posts in Hin.
      apply in_map_iff in Hin as (r1 & Hr & _).
      destruct (has_id (Post.id pd) r1) eqn:E.
      * subst r. repeat split.
      * subst r. congruence.
  - destruct Hrun as [Hposts Hdata].
    pose proof (@single_filter_none _ _ Hnd Hs) as Hnot.
    rewrite Hposts, map_app. simpl. split; [|split].
    + apply NoDup_app; [assumption | repeat constructor; simpl; tauto |].
      intros x Hx [Hx'|[]]. subst x. contradiction.
    + exists (insert_row pd). split; [assumption|].
      rewrite filter_app, (@filter_has_id_absent _ _ Hnot). simpl.
      unfold has_id. simpl. rewrite String.eqb_refl. reflexivity.
    + intros r Hin Hb. apply in_app_or in Hin as [Hin|[<-|[]]].
      * exfalso. apply Hnot. apply has_id_true in Hb. rewrite <- Hb.
        apply in_map. assumption.
      * repeat split.
Qed.

(** C6, as the code has it.  In a store with one row per id, ingesting the
    same item a second time takes the update path unconditionally: the
    Items after the second call are the Items after the first, except that
    the row of the item has last_updated_at set to the time of the second
    call. *)
Theorem savePost_repeat_bumps_last_updated (env : Env) (pd : Post.t)
    (w w1 w2 : World) (d1 d2 : list PostRow.t) :
  NoDup (post_ids w) ->
  savePost env pd w = (Ok d1, w1) ->
  savePost env pd w1 = (Ok d2, w2) ->
  let now := clock env (S (length (trace w1))) in
  reddit_posts w2
  = map (fun r => if has_id (Post.id pd) r then set_last_updated now r else r)
        (reddit_posts w1) /\
  d2 = map (set_last_updated now) d1.
Proof.
  intros Hnd Hrun1 Hrun2 now.
  destruct (@savePost_ok_state env pd w w1 d1 Hnd Hrun1) as (Hnd1 & (r1 & Hd1 & Hf1) & Hup).
  apply savePost_ok in Hrun2. rewrite Hf1 in Hrun2. simpl in Hrun2.
  destruct Hrun2 as (now' & Hposts & Hdata & Hnow). fold now in Hnow. subst now'.
  assert (Hmap : update_posts pd now (reddit_posts w1)
                 = map (fun r => if has_id (Post.id pd) r
                                 then set_last_updated now r else r)
                       (reddit_posts w1)).
  { unfold update_posts. apply map_ext_in. intros r Hin.
    destruct (has_id (Post.id pd) r) eqn:E; [|reflexivity].
    apply update_row_up_to_date. apply Hup; assumption. }
  split.
  - rewrite Hposts. exact Hmap.
  - rewrite Hdata, Hposts, update_posts_filter, Hf1, Hd1. simpl. f_equal.
    apply update_row_up_to_date. apply Hup.
    + assert (Hin : In r1 (filter (has_id (Post.id pd)) (reddit_posts w1)))
        by (rewrite Hf1; left; reflexivity).
      apply filter_In in Hin. tauto.
    + assert (Hin : In r1 (filter (has_id (Post.id pd)) (reddit_posts w1)))
        by (rewrite Hf1; left; reflexivity).
      apply filter_In in Hin. tauto.
Qed.

(** C6 as stated fails: ingesting p1 again with the same fields, the Items
    after the call are not the Items before it, at the second sight (the
    first update) and at the third (an update after an update) alike. *)
Lemma savePost_repeat_changes_item :
  let pd := formatPostData (sample_post "p1" 10 2) in
  let w1 := snd (savePost refetch_env pd empty_world) in
  let w2 := snd (savePost refetch_env pd w1) in
  let w3 := snd (savePost refetch_env pd w2) in
  fst (savePost refetch_env pd empty_world) = Ok (reddit_posts w1) /\
  fst (savePost refetch_env pd w1) = Ok (reddit_posts w2) /\
  fst (savePost refetch_env pd w2) = Ok (reddit_posts w3) /\
  map PostRow.last_updated_at (reddit_posts w1) = [None] /\
  map PostRow.last_updated_at (reddit_posts w2) = [Some 1700000000300] /\
  map PostRow.last_updated_at (reddit_posts w3) = [Some 1700000000500] /\
  reddit_posts w2 <> reddit_posts w1 /\
  reddit_posts w3 <> reddit_posts w2.
Proof.
  vm_compute. repeat split; discriminate.
Qed.

Lemma savePost_repeat_bumps_last_updated_witness :
  let pd := formatPostData (sample_post "p1" 10 2) in
  let w1 := snd (savePost refetch_env pd empty_world) in
  let w2 := snd (savePost refetch_env pd w1) in
  NoDup (post_ids empty_world) /\
  reddit_posts w2
  = map (fun r => if has_id "p1" r
                  then set_last_updated (sample_clock (S (length (trace w1)))) r
                  else r)
        (reddit_posts w1).
Proof.
  intros pd w1 w2.
  assert (Hnd : NoDup (post_ids empty_world)) by constructor.
  split; [exact Hnd|].
  refine (proj1 (@savePost_repeat_bumps_last_updated refetch_env pd
                   empty_world w1 w2 (reddit_posts w1) (reddit_posts w2)
                   Hnd _ _)).
  - vm_compute. reflexivity.
  - vm_compute. reflexivity.
Defined.

(** ** Run logging *)

Lemma str_or_null_nonempty (s : string) :
  s <> "" -> str_or_null (Some s) = Some s.
Proof.
  intros H. simpl. destruct (s =? "")%string eqn:E; [|reflexivity].
  apply String.eqb_eq in E. contradiction.
Qed.

Lemma scrapeOne_listing (env : Env) (mode : Mode) (name : string) (limit : Z) :
  scrapeOne env mode name limit
  = scrapeListing env (feed_url mode name limit) (scrape_type mode)
      match mode with Top timeframe => Some timeframe | _ => None end name.
Proof. destruct mode; reflexivity. Qed.

(** [searchPosts] issues no database request at all. *)
Lemma searchPosts_run (env : Env) (name query : string) (limit : Z) (w : World) :
  let url := search_url env name query limit in
  trace (snd (searchPosts env name query limit w))
    = trace w ++ [EDelay 1000; EGet url] /\
  scraping_logs (snd (searchPosts env name query limit w)) = scraping_logs w /\
  reddit_posts (snd (searchPosts env name query limit w)) = reddit_posts w /\
  (forall e, http env (http_no w) url = inl e ->
             fst (searchPosts env name query limit w) = Throw e).
Proof.
  intros url. unfold searchPosts. fold url. unfold_m.
  rewrite http_no_record_delay.
  destruct (http env (http_no w) url) as [e|items]; simpl;
    rewrite <- app_assoc; repeat split; try discriminate.
  intros e' H; inversion H; reflexivity.
Qed.

(** C3, as the code has it.  When the store accepts log rows, every scrape
    in mode hot, top or new appends exactly one row to [scraping_logs], on
    the success and on the error path; when the fetch raises, the row has
    status "error", posts_found 0, posts_saved 0 and the message of the
    error (non-empty when that message is), and the scrape throws that
    error.  A search appends no row: it re-raises the error of the fetch
    without a log row. *)
Theorem scrape_writes_one_runlog (env : Env) (mode : Mode) (name : string)
    (limit : Z) (w : World) :
  (forall n, db_fault env n (InsertLog name) = None) ->
  (exists row,
     scraping_logs (snd (scrapeOne env mode name limit w))
       = scraping_logs w ++ [row] /\
     Log.subreddit row = name /\
     Log.scrape_type row = scrape_type mode /\
     match fst (scrapeOne env mode name limit w) with
     | Ok r =>
         Log.status row = "success" /\
         Log.posts_found row = totalPosts r /\
         Log.posts_saved row = newPosts r /\
         Log.error_message row = None
     | Throw e =>
         Log.status row = "error" /\
         Log.posts_found row = 0%nat /\
         Log.posts_saved row = 0%nat /\
         (message e <> "" -> Log.error_message row = Some (message e))
     end /\
     (forall e, http env (http_no w) (feed_url mode name limit) = inl e ->
                fst (scrapeOne env mode name limit w) = Throw e)) /\
  (forall query,
     scraping_logs (snd (searchPosts env name query limit w)) = scraping_logs w /\
     (forall e, http env (http_no w) (search_url env name query limit) = inl e ->
                fst (searchPosts env name query limit w) = Throw e)).
Proof.
  intros Hlog. split.
  - rewrite scrapeOne_listing.
    destruct (@scrapeListing_logged env (feed_url mode name limit)
                (scrape_type mode)
                match mode with Top timeframe => Some timeframe | _ => None end
                name w Hlog)
      as (row & Hrows & Hsub & Hty & Hres & Hthrow).
    exists row. repeat split; try assumption.
    destruct (fst (scrapeListing _ _ _ _ _ _)) as [r|e].
    + assumption.
    + destruct Hres as (H1 & H2 & H3 & H4). repeat split; try assumption.
      intros Hne. rewrite H4. apply str_or_null_nonempty. assumption.
  - intros query.
    destruct (searchPosts_run env name query limit w) as (_ & Hl & _ & Hthrow).
    split; assumption.
Qed.

Lemma scrape_writes_one_runlog_witness :
  (forall n, db_fault offline_env n (InsertLog "SaaS") = None) /\
  exists row,
    scraping_logs (snd (scrapeOne offline_env Hot "SaaS" 25 empty_world)) = [row] /\
    Log.status row = "error" /\
    Log.error_message row = Some "Network Error" /\
    fst (scrapeOne offline_env Hot "SaaS" 25 empty_world)
      = Throw (mkError "Network Error").
Proof.
  assert (Hlog : forall n, db_fault offline_env n (InsertLog "SaaS") = None)
    by reflexivity.
  split; [exact Hlog|].
  destruct (proj1 (@scrape_writes_one_runlog offline_env Hot "SaaS" 25
                     empty_world Hlog))
    as (row & Hrows & _ & _ & Hres & Hthrow).
  exists row.
  rewrite (Hthrow (mkError "Network Error") eq_refl) in Hres.
  destruct Hres as (Hst & _ & _ & Hmsg).
  split; [exact Hrows|]. split; [exact Hst|]. split.
  - apply Hmsg. discriminate.
  - apply (Hthrow (mkError "Network Error")). reflexivity.
Defined.

(** C3 as stated fails for mode search: a search whose fetch raises writes
    no row to [scraping_logs]. *)
Lemma search_writes_no_runlog :
  let run := searchPosts offline_env "SaaS" "pricing" 25 empty_world in
  fst run = Throw (mkError "Network Error") /\
  scraping_logs (snd run) = scraping_logs empty_world /\
  ~ (exists row, scraping_logs (snd run) = scraping_logs empty_world ++ [row]).
Proof.
  vm_compute. repeat split. intros [row H]. discriminate.
Qed.

(** The invariant of table [reddit_posts], one row per id, holds of the
    empty store and is kept by [savePost], by the item loop and by every
    single-feed scrape. *)
Lemma savePost_keeps_one_row_per_id (env : Env) (pd : Post.t) (w : World) :
  NoDup (post_ids w) -> NoDup (post_ids (snd (savePost env pd w))).
Proof.
  intros Hnd. destruct (savePost env pd w) as [[data|e] w'] eqn:Hrun; simpl.
  - apply (@savePost_ok_state env pd w w' data Hnd Hrun).
  - unfold post_ids. rewrite (@savePost_throw env pd w w' e Hrun). exact Hnd.
Qed.

Lemma savePosts_keeps_one_row_per_id (env : Env) (posts : list Post.t) :
  forall (acc : list (list PostRow.t)) (w : World),
  NoDup (post_ids w) -> NoDup (post_ids (snd (savePosts env posts acc w))).
Proof.
  induction posts as [|post rest IH]; intros acc w Hnd; [exact Hnd|].
  cbn [savePosts]. unfold bind at 1, try_catch at 1, bind at 1.
  pose proof (@savePost_keeps_one_row_per_id env (formatPostData post) w Hnd) as H1.
  destruct (savePost env (formatPostData post) w) as [[data|e] w1];
    simpl in H1; unfold ret at 1; apply IH; exact H1.
Qed.

Lemma scrapeOne_keeps_one_row_per_id (env : Env) (mode : Mode) (name : string)
    (limit : Z) (w : World) :
  NoDup (post_ids w) ->
  NoDup (post_ids (snd (scrapeOne env mode name limit w))).
Proof.
  intros Hnd. rewrite scrapeOne_listing. open_listing.
  destruct (http env (http_no w) (feed_url mode name limit)) as [e|items].
  - case_fault; exact Hnd.
  - pose proof (@savePosts_keeps_one_row_per_id env items []
                  (record_event (EGet (feed_url mode name limit))
                     (record_event (EDelay 1000) w)) Hnd) as H.
    destruct (savePosts env items [] _) as [[saved|e] w1]; simpl in H;
      repeat case_fault; exact H.
Qed.

(** ** Isolation of item failures *)






(** In a store that refuses nothing, [savePost] succeeds. *)
Lemma savePost_no_fault (env : Env) (pd : Post.t) (w : World) :
  (forall n op, db_fault env n op = None) ->
  exists data, fst (savePost env pd w) = Ok data.
Proof.
  intros Hdb. unfold savePost, getPostById, updatePost. unfold_m.
  rewrite Hdb. destruct (single _); rewrite Hdb; simpl; eexists; reflexivity.
Qed.

Lemma savePosts_no_fault (env : Env) (posts : list Post.t) :
  (forall n op, db_fault env n op = None) ->
  forall (acc : list (list PostRow.t)) (w : World),
  exists new w',
    savePosts env posts acc w = (Ok (acc ++ new), w') /\
    length new = length posts.
Proof.
  intros Hdb. induction posts as [|post rest IH]; intros acc w.
  - exists [], w. simpl. rewrite app_nil_r. split; reflexivity.
  - cbn [savePosts]. unfold bind at 1, try_catch at 1, bind at 1.
    destruct (@savePost_no_fault env (formatPostData post) w Hdb) as [data Hok].
    destruct (savePost env (formatPostData post) w) as [res w1].
    simpl in Hok. subst res. unfold ret at 1, truthy_rows. cbv iota.
    destruct (IH (acc ++ [data]) w1) as (new & w2 & Hrun & Hlen).
    exists (data :: new), w2. rewrite Hrun, <- app_assoc. simpl.
    split; congruence.
Qed.

(** With no refusal at all, every item of the listing is counted in
    [newPosts], whether its id was in the store or not. *)
Lemma scrape_counts_every_persisted_item (env : Env) (mode : Mode)
    (name : string) (limit : Z) (w : World) (items : list Post.t) :
  http env (http_no w) (feed_url mode name limit) = inr items ->
  (forall n op, db_fault env n op = None) ->
  exists r w',
    scrapeOne env mode name limit w = (Ok r, w') /\
    totalPosts r = length items /\
    newPosts r = length items.
Proof.
  intros Hh Hdb. rewrite scrapeOne_listing. open_listing. rewrite Hh.
  destruct (@savePosts_no_fault env items Hdb []
              (record_event (EGet (feed_url mode name limit))
                 (record_event (EDelay 1000) w)))
    as (new & w1 & Hrun & Hlen).
  rewrite Hrun, !Hdb. simpl.
  do 2 eexists. split; [reflexivity|]. simpl. split; [reflexivity | exact Hlen].
Qed.

(** ** Batches *)

(** The hypotheses of the batch loops, for the methods they call. *)
Lemma scrapeOne_timeline (env : Env) (mode : Mode) (name : string) (limit : Z)
    (w : World) :
  exists evs,
    trace (snd (scrapeOne env mode name limit w)) = trace w ++ evs /\
    timeline evs = [EDelay 1000; EGet (feed_url mode name limit)].
Proof. rewrite scrapeOne_listing. apply scrapeListing_timeline. Qed.

Lemma scrapeOne_result (env : Env) (mode : Mode) (name : string) (limit : Z)
    (w : World) :
  match fst (scrapeOne env mode name limit w) with
  | Ok r => subreddit r = name /\ error r = None
  | Throw _ => True
  end.
Proof.
  rewrite scrapeOne_listing.
  pose proof (scrapeListing_result env (feed_url mode name limit)
                (scrape_type mode)
                match mode with Top timeframe => Some timeframe | _ => None end
                name w) as H.
  destruct (fst (scrapeListing _ _ _ _ _ _)); [|exact I]. tauto.
Qed.

Lemma scrapeOne_fails (env : Env) (mode : Mode) (name : string) (limit : Z)
    (w : World) :
  (forall n, exists e, http env n (feed_url mode name limit) = inl e) ->
  exists e, fst (scrapeOne env mode name limit w) = Throw e.
Proof.
  intros H. destruct (H (http_no w)) as [e He].
  rewrite scrapeOne_listing.
  apply (@scrapeListing_fetch_fails env _ (scrape_type mode)
           match mode with Top timeframe => Some timeframe | _ => None end
           name w e He).
Qed.

(** A batch in mode [mode] with [limit] items per feed. *)
Lemma batch_run (env : Env) (mode : Mode) (limit : Z) (tf : option string)
    (w : World) :
  exists rs evs w',
    batchLoop (fun s => scrapeOne env mode s limit) tf trackedSubreddits [] w
      = (Ok rs, w') /\
    map subreddit rs = trackedSubreddits /\
    feeds_run (fun s => scrapeOne env mode s limit) tf trackedSubreddits w rs w' /\
    Forall (fun r => error r = None \/ is_error_entry r) rs /\
    Forall (fun r => (forall n, exists e,
                        http env n (feed_url mode (subreddit r) limit) = inl e) ->
                     is_error_entry r) rs /\
    trace w' = trace w ++ evs /\
    timeline evs = flat_map (feed_timeline (fun s => feed_url mode s limit)) rs.
Proof.
  destruct (@batchLoop_run (fun s => scrapeOne env mode s limit)
              (fun s => feed_url mode s limit) tf
              (fun s => forall n, exists e,
                          http env n (feed_url mode s limit) = inl e)
              (fun s w0 => scrapeOne_timeline env mode s limit w0)
              (fun s w0 => scrapeOne_result env mode s limit w0)
              (fun s w0 => @scrapeOne_fails env mode s limit w0)
              trackedSubreddits [] w)
    as (new & evs & w' & Hrun & H).
  exists new, evs, w'. split; assumption.
Qed.

(** C4. A batch never throws, and returns one entry per tracked feed, in the
    order of the list, whatever the feeds and the store answer; an entry
    either carries no error or is an error entry; and the entry of a feed
    that cannot be fetched is an error entry, so that a failing feed takes
    nothing from the others, also when every feed fails. *)
Theorem batch_isolates_feed_failures (env : Env) (w : World) (timeframe : string) :
  one_outcome_per_feed env
    (fun s => scrapeSubreddit env s 25) (fun s => hot_url s 25) None
    (scrapeAllSubreddits env) w /\
  one_outcome_per_feed env
    (fun s => getTopPosts env s timeframe 50) (fun s => top_url s timeframe 50)
    (Some timeframe)
    (scrapeTopPostsAllSubreddits env timeframe) w.
Proof.
  split.
  - destruct (batch_run env Hot 25 None w)
      as (rs & evs & w' & Hrun & Hmap & Hfeeds & Hall & Hbad & _).
    unfold one_outcome_per_feed, scrapeAllSubreddits.
    unfold bind at 1. change (fun s => scrapeSubreddit env s 25)
      with (fun s => scrapeOne env Hot s 25).
    rewrite Hrun. unfold ret. do 2 eexists. split; [reflexivity|].
    cbn [total results].
    repeat split; try assumption.
    rewrite <- Hmap, length_map. reflexivity.
  - destruct (batch_run env (Top timeframe) 50 (Some timeframe) w)
      as (rs & evs & w' & Hrun & Hmap & Hfeeds & Hall & Hbad & _).
    unfold one_outcome_per_feed, scrapeTopPostsAllSubreddits.
    unfold bind at 1. change (fun s => getTopPosts env s timeframe 50)
      with (fun s => scrapeOne env (Top timeframe) s 50).
    rewrite Hrun. unfold ret. do 2 eexists. split; [reflexivity|].
    cbn [total results].
    repeat split; try assumption.
    rewrite <- Hmap, length_map. reflexivity.
Qed.

(** With every feed unreachable the batch still returns its nine entries,
    all of them error entries. *)
Lemma batch_isolates_feed_failures_witness :
  exists b w',
    scrapeAllSubreddits offline_env empty_world = (Ok b, w') /\
    map subreddit (results b) = trackedSubreddits /\
    Forall is_error_entry (results b).
Proof.
  destruct (proj1 (batch_isolates_feed_failures offline_env empty_world "week"))
    as (b & w' & Hrun & _ & Hmap & _ & _ & Hbad).
  exists b, w'. split; [exact Hrun|]. split; [exact Hmap|].
  eapply Forall_impl; [|exact Hbad].
  intros r H. apply H. intros n. exists (mkError "Network Error"). reflexivity.
Defined.

(** ** Delays *)


(** The timers and requests the code performs.  Every single-feed scrape,
    in mode hot, top, new or search, waits 1000 ms and then issues its one
    request.  A batch runs its feeds in the order of the result; for each
    it performs the wait and the request of the single-feed scrape, and the
    wait of 2000 ms follows when the scrape of the feed returned. *)
Theorem delays_of_scrape_and_batch (env : Env) (w : World) :
  (forall mode name limit,
     timeline (since w (snd (scrapeOne env mode name limit w)))
     = [EDelay 1000; EGet (feed_url mode name limit)]) /\
  (forall name query limit,
     timeline (since w (snd (searchPosts env name query limit w)))
     = [EDelay 1000; EGet (search_url env name query limit)]) /\
  (exists b w',
     scrapeAllSubreddits env w = (Ok b, w') /\
     timeline (since w w')
     = flat_map (feed_timeline (fun s => hot_url s 25)) (results b)) /\
  (forall timeframe, exists b w',
     scrapeTopPostsAllSubreddits env timeframe w = (Ok b, w') /\
     timeline (since w w')
     = flat_map (feed_timeline (fun s => top_url s timeframe 50)) (results b)).
Proof.
  split; [|split; [|split]].
  - intros mode name limit.
    destruct (scrapeOne_timeline env mode name limit w) as (evs & Ht & Htl).
    rewrite (@since_app _ _ _ Ht). exact Htl.
  - intros name query limit.
    destruct (searchPosts_run env name query limit w) as (Ht & _).
    rewrite (@since_app _ _ _ Ht). reflexivity.
  - destruct (batch_run env Hot 25 None w)
      as (rs & evs & w' & Hrun & _ & _ & _ & _ & Ht & Htl).
    unfold scrapeAllSubreddits. unfold bind at 1.
    change (fun s => scrapeSubreddit env s 25)
      with (fun s => scrapeOne env Hot s 25).
    rewrite Hrun. unfold ret. do 2 eexists. split; [reflexivity|].
    rewrite (@since_app _ _ _ Ht). exact Htl.
  - intros timeframe.
    destruct (batch_run env (Top timeframe) 50 (Some timeframe) w)
      as (rs & evs & w' & Hrun & _ & _ & _ & _ & Ht & Htl).
    unfold scrapeTopPostsAllSubreddits. unfold bind at 1.
    change (fun s => getTopPosts env s timeframe 50)
      with (fun s => scrapeOne env (Top timeframe) s 50).
    rewrite Hrun. unfold ret. do 2 eexists. split; [reflexivity|].
    rewrite (@since_app _ _ _ Ht). exact Htl.
Qed.

(** C9. In a batch whose first feed fails, every request is preceded by its
    wait of 1000 ms, but the wait of 2000 ms between feeds is missing
    between the failed first feed and the second: nothing but the 1000 ms
    wait of the second feed lies between the two requests, while the wait
    follows the second feed, which returned. *)
Lemma no_delay_after_failed_feed :
  let w' := snd (scrapeAllSubreddits first_feed_down_env empty_world) in
  firstn 5 (timeline (trace w'))
  = [EDelay 1000; EGet (hot_url "B2BSaas" 25);
     EDelay 1000; EGet (hot_url "Business_Ideas" 25);
     EDelay 2000] /\
  hd [] (between_requests (timeline (trace w'))) = [EDelay 1000] /\
  forallb (has_delay 2000) (between_requests (timeline (trace w'))) = false.
Proof.
  vm_compute. repeat split.
Qed.

(** ** The tracked feeds *)


(* ------------------------------------------------------------------ *)
(** * Further properties *)

(** ** Run logging, whatever the store answers *)

(** Every single-feed scrape appends at most one row to [scraping_logs],
    for its own feed, whatever the feed and the store answer; a scrape that
    returns has appended exactly one. *)
Theorem scrape_logs_at_most_once (env : Env) (mode : Mode) (name : string)
    (limit : Z) (w : World) :
  exists rows,
    scraping_logs (snd (scrapeOne env mode name limit w))
      = scraping_logs w ++ rows /\
    (length rows <= 1)%nat /\
    Forall (fun row => Log.subreddit row = name) rows /\
    (forall r, fst (scrapeOne env mode name limit w) = Ok r ->
               length rows = 1%nat).
Proof.
  rewrite scrapeOne_listing. open_listing.
  destruct (http env (http_no w) (feed_url mode name limit)) as [e|items].
  - case_fault; simpl.
    + exists []. rewrite app_nil_r. repeat split; auto; discriminate.
    + eexists [_]. repeat split; auto; discriminate.
  - run_loop env items
      (record_event (EGet (feed_url mode name limit))
         (record_event (EDelay 1000) w))
      new evs w1 Ht Htl Hsel Hlen Hs Hl Hb.
    repeat case_fault; simpl; rewrite Hl;
      first [ exists []; rewrite app_nil_r; solve [repeat split; auto; discriminate]
            | eexists [_]; solve [repeat split; auto; discriminate] ].
Qed.

(** When the store refuses the update of [subreddits] that follows the item
    loop, a scrape whose fetch succeeded throws that refusal; the one log
    row of the run has status "error" and counts 0 found and 0 saved, while
    table [reddit_posts] holds what the item loop saved. *)
Theorem scrape_fails_when_touch_refused (env : Env) (mode : Mode)
    (name : string) (limit : Z) (w : World) (items : list Post.t)
    (e : JsError) :
  http env (http_no w) (feed_url mode name limit) = inr items ->
  (forall n, db_fault env n (UpdateSubreddit name) = Some e) ->
  (forall n, db_fault env n (InsertLog name) = None) ->
  exists w' row,
    scrapeOne env mode name limit w = (Throw e, w') /\
    scraping_logs w' = scraping_logs w ++ [row] /\
    Log.status row = "error" /\
    Log.posts_found row = 0%nat /\
    Log.posts_saved row = 0%nat /\
    selected (since w w') = map Post.id items /\
    reddit_posts w'
    = reddit_posts
        (snd (savePosts env items []
                (record_event (EGet (feed_url mode name limit))
                   (record_event (EDelay 1000) w)))).
Proof.
  intros Hh Hsub Hlog. rewrite scrapeOne_listing. open_listing. rewrite Hh.
  run_loop env items
    (record_event (EGet (feed_url mode name limit)) (record_event (EDelay 1000) w))
    new evs w1 Ht Htl Hsel Hlen Hs Hl Hb.
  rewrite Hsub, Hlog. simpl.
  do 2 eexists. split; [reflexivity|]. simpl.
  erewrite since_app by (simpl; rewrite Ht, <- !app_assoc; reflexivity).
  rewrite !selected_app, Hsel, Hl. simpl. rewrite app_nil_r.
  repeat split.
Qed.

Lemma scrape_fails_when_touch_refused_witness :
  exists w' row,
    scrapeOne touch_refused_env Hot "SaaS" 25 empty_world
      = (Throw (mkError "permission denied for table subreddits"), w') /\
    scraping_logs w' = [row] /\
    Log.posts_saved row = 0%nat /\
    post_ids w' = ["a1"; "a2"; "a3"].
Proof.
  destruct (@scrape_fails_when_touch_refused touch_refused_env Hot "SaaS" 25
              empty_world
              [sample_post "a1" 1 0; sample_post "a2" 2 0; sample_post "a3" 3 0]
              (mkError "permission denied for table subreddits")
              eq_refl (fun _ => eq_refl) (fun _ => eq_refl))
    as (w' & row & Hrun & Hlogs & _ & _ & Hsaved & _ & Hposts).
  exists w', row. repeat split; try assumption.
  unfold post_ids. rewrite Hposts. vm_compute. reflexivity.
Defined.

(** ** What a scrape does to table [reddit_posts] *)

Lemma savePost_adds_at_most_its_id (env : Env) (pd : Post.t) (w : World) :
  exists added,
    post_ids (snd (savePost env pd w)) = post_ids w ++ added /\
    incl added [Post.id pd].
Proof.
  unfold post_ids.
  destruct (savePost env pd w) as [[data|e] w'] eqn:Hrun; simpl.
  - apply savePost_ok in Hrun.
    destruct (single (filter (has_id (Post.id pd)) (reddit_posts w))).
    + destruct Hrun as (now & Hposts & _). exists [].
      rewrite Hposts, update_posts_ids, app_nil_r. split; [reflexivity|].
      intros x [].
    + destruct Hrun as [Hposts _]. exists [Post.id pd].
      rewrite Hposts, map_app. split; [reflexivity | apply incl_refl].
  - apply savePost_throw in Hrun. exists [].
    rewrite Hrun, app_nil_r. split; [reflexivity|]. intros x [].
Qed.

Lemma savePosts_adds_listed_ids (env : Env) (posts : list Post.t) :
  forall (acc : list (list PostRow.t)) (w : World),
  exists added,
    post_ids (snd (savePosts env posts acc w)) = post_ids w ++ added /\
    incl added (map Post.id posts).
Proof.
  induction posts as [|post rest IH]; intros acc w.
  - exists []. simpl. rewrite app_nil_r. split; [reflexivity | apply incl_refl].
  - cbn [savePosts]. unfold bind at 1, try_catch at 1, bind at 1.
    destruct (savePost_adds_at_most_its_id env (formatPostData post) w)
      as (a1 & H1 & Hin1).
    destruct (savePost env (formatPostData post) w) as [[data|e] w1];
      simpl in H1; unfold ret at 1, truthy_rows; cbv iota.
    + destruct (IH (acc ++ [data]) w1) as (a2 & H2 & Hin2).
      exists (a1 ++ a2). rewrite H2, H1, app_assoc. split; [reflexivity|].
      apply incl_app.
      * intros x Hx. left. apply Hin1 in Hx. destruct Hx as [<-|[]]. reflexivity.
      * apply incl_tl. exact Hin2.
    + destruct (IH acc w1) as (a2 & H2 & Hin2).
      exists (a1 ++ a2). rewrite H2, H1, app_assoc. split; [reflexivity|].
      apply incl_app.
      * intros x Hx. left. apply Hin1 in Hx. destruct Hx as [<-|[]]. reflexivity.
      * apply incl_tl. exact Hin2.
Qed.

(** A single-feed scrape never removes a row of [reddit_posts] and never
    moves one: the ids of the table after the scrape are the ids before it,
    in the same order, followed by ids of the fetched listing.  This holds
    whatever the feed and the store answer. *)
Theorem scrape_only_adds_listed_posts (env : Env) (mode : Mode) (name : string)
    (limit : Z) (w : World) :
  exists added,
    post_ids (snd (scrapeOne env mode name limit w)) = post_ids w ++ added /\
    forall id, In id added ->
      exists items,
        http env (http_no w) (feed_url mode name limit) = inr items /\
        In id (map Post.id items).
Proof.
  rewrite scrapeOne_listing. open_listing.
  destruct (http env (http_no w) (feed_url mode name limit)) as [e|items].
  - exists []. split; [|intros id []].
    case_fault; simpl; unfold post_ids; simpl; rewrite app_nil_r; reflexivity.
  - destruct (savePosts_adds_listed_ids env items []
                (record_event (EGet (feed_url mode name limit))
                   (record_event (EDelay 1000) w)))
      as (added & Hadd & Hincl).
    exists added. split.
    + destruct (savePosts env items [] _) as [[saved|e] w1]; simpl in Hadd;
        repeat case_fault; exact Hadd.
    + intros id Hin. exists items. split; [reflexivity | apply Hincl; exact Hin].
Qed.

(** ** Batches: invariant, logs, and the scheduled runs *)

Section BatchInvariant.

Variable scrape : string -> M ScrapeResult.
Variable tf : option string.
Variable Inv : World -> Prop.

Hypothesis scrape_keeps : forall s w, Inv w -> Inv (snd (scrape s w)).
Hypothesis delay_keeps : forall ms w, Inv w -> Inv (record_event (EDelay ms) w).

Lemma batchLoop_keeps (subs : list string) :
  forall (acc : list ScrapeResult) (w : World),
  Inv w -> Inv (snd (batchLoop scrape tf subs acc w)).
Proof.
  induction subs as [|s rest IH]; intros acc w Hinv; [exact Hinv|].
  cbn [batchLoop]. unfold bind at 1, try_catch at 1, bind at 1.
  pose proof (@scrape_keeps s w Hinv) as H1.
  destruct (scrape s w) as [[r|e] w1]; simpl in H1.
  - unfold bind at 1, delay at 1, modify at 1, ret at 1.
    apply IH. apply delay_keeps. exact H1.
  - unfold ret at 1. apply IH. exact H1.
Qed.

(** The loop of a scheduled run leaves the world the loop of the manual
    batch leaves. *)
Lemma cronLoop_world (subs : list string) :
  forall (acc : list ScrapeResult) (w : World),
  snd (cronLoop scrape subs w) = snd (batchLoop scrape tf subs acc w).
Proof.
  induction subs as [|s rest IH]; intros acc w; [reflexivity|].
  cbn [cronLoop batchLoop]. unfold bind, try_catch.
  destruct (scrape s w) as [[r|e] w1].
  - unfold delay, modify, ret. apply IH.
  - unfold ret. apply IH.
Qed.

End BatchInvariant.

(** One row per id, a property of the empty store, is kept by the manual
    batches and by the scheduled runs, whatever the feeds and the store
    answer. *)
Theorem batch_keeps_one_row_per_id (env : Env) (w : World) (timeframe : string) :
  NoDup (post_ids w) ->
  NoDup (post_ids (snd (scrapeAllSubreddits env w))) /\
  NoDup (post_ids (snd (scrapeTopPostsAllSubreddits env timeframe w))) /\
  NoDup (post_ids (snd (scrapeAllSubredditsHourly env w))) /\
  NoDup (post_ids (snd (scrapeTopPostsWeekly env w))).
Proof.
  intros Hnd.
  assert (Hloop : forall mode limit tf,
             NoDup (post_ids (snd (batchLoop (fun s => scrapeOne env mode s limit)
                                     tf trackedSubreddits [] w)))).
  { intros mode limit tf.
    apply (@batchLoop_keeps (fun s => scrapeOne env mode s limit) tf
             (fun w0 => NoDup (post_ids w0))); [| |exact Hnd].
    - intros s w0. apply scrapeOne_keeps_one_row_per_id.
    - intros ms w0 H. exact H. }
  repeat split.
  - pose proof (Hloop Hot 25 None) as H.
    unfold scrapeAllSubreddits. unfold bind at 1.
    change (fun s => scrapeSubreddit env s 25)
      with (fun s => scrapeOne env Hot s 25).
    destruct (batchLoop _ _ _ _ _) as [[rs|e] w']; exact H.
  - pose proof (Hloop (Top timeframe) 50 (Some timeframe)) as H.
    unfold scrapeTopPostsAllSubreddits. unfold bind at 1.
    change (fun s => getTopPosts env s timeframe 50)
      with (fun s => scrapeOne env (Top timeframe) s 50).
    destruct (batchLoop _ _ _ _ _) as [[rs|e] w']; exact H.
  - unfold scrapeAllSubredditsHourly.
    change (fun s => scrapeSubreddit env s 25)
      with (fun s => scrapeOne env Hot s 25).
    rewrite (cronLoop_world _ None trackedSubreddits [] w). apply Hloop.
  - unfold scrapeTopPostsWeekly.
    change (fun s => getTopPosts env s "week" 50)
      with (fun s => scrapeOne env (Top "week") s 50).
    rewrite (cronLoop_world _ None trackedSubreddits [] w). apply Hloop.
Qed.

Lemma batch_keeps_one_row_per_id_witness :
  NoDup (post_ids world_with_p1) /\
  NoDup (post_ids (snd (scrapeAllSubreddits refetch_env world_with_p1))).
Proof.
  assert (Hnd : NoDup (post_ids world_with_p1)).
  { vm_compute. constructor; [intros [] | constructor]. }
  split; [exact Hnd|].
  apply (proj1 (@batch_keeps_one_row_per_id refetch_env world_with_p1 "week" Hnd)).
Defined.

(** The hourly run leaves the store and the trace exactly as the manual
    batch over all feeds leaves them, and the six-hourly run as the manual
    top-posts batch for the week: a scheduled run differs from the manual
    one only in returning nothing. *)
Theorem scheduled_run_is_the_manual_batch (env : Env) (w : World) :
  snd (scrapeAllSubredditsHourly env w) = snd (scrapeAllSubreddits env w) /\
  snd (scrapeTopPostsWeekly env w)
  = snd (scrapeTopPostsAllSubreddits env "week" w) /\
  fst (scrapeAllSubredditsHourly env w) = Ok tt /\
  fst (scrapeTopPostsWeekly env w) = Ok tt.
Proof.
  assert (Hbatch : forall (scrape : string -> M ScrapeResult) tf (k : list ScrapeResult -> BatchResult),
             snd ((results <- batchLoop scrape tf trackedSubreddits [] ;;
                   ret (k results)) w)
             = snd (batchLoop scrape tf trackedSubreddits [] w)).
  { intros scrape tf k. unfold bind, ret.
    destruct (batchLoop scrape tf trackedSubreddits [] w) as [[rs|e] w'];
      reflexivity. }
  split; [|split; [|split]].
  - unfold scrapeAllSubreddits, scrapeAllSubredditsHourly.
    rewrite Hbatch. apply cronLoop_world.
  - unfold scrapeTopPostsAllSubreddits, scrapeTopPostsWeekly.
    rewrite Hbatch. apply cronLoop_world.
  - destruct (@cronLoop_run (fun s => scrapeOne env Hot s 25)
                (fun s => hot_url s 25)
                (fun s w0 => scrapeOne_timeline env Hot s 25 w0)
                trackedSubreddits w) as (evs & w' & Hrun & _).
    unfold scrapeAllSubredditsHourly.
    change (fun s => scrapeSubreddit env s 25)
      with (fun s => scrapeOne env Hot s 25).
    rewrite Hrun. reflexivity.
  - destruct (@cronLoop_run (fun s => scrapeOne env (Top "week") s 50)
                (fun s => top_url s "week" 50)
                (fun s w0 => scrapeOne_timeline env (Top "week") s 50 w0)
                trackedSubreddits w) as (evs & w' & Hrun & _).
    unfold scrapeTopPostsWeekly.
    change (fun s => getTopPosts env s "week" 50)
      with (fun s => scrapeOne env (Top "week") s 50).
    rewrite Hrun. reflexivity.
Qed.

Section BatchLogs.

Variable scrape : string -> M ScrapeResult.
Variable tf : option string.

Hypothesis scrape_logged :
  forall s w, exists row,
    scraping_logs (snd (scrape s w)) = scraping_logs w ++ [row] /\
    Log.subreddit row = s /\
    match fst (scrape s w) with
    | Ok r =>
        subreddit r = s /\ error r = None /\
        Log.status row = "success" /\
        Log.posts_found row = totalPosts r /\
        Log.posts_saved row = newPosts r
    | Throw _ =>
        Log.status row = "error" /\
        Log.posts_found row = 0%nat /\
        Log.posts_saved row = 0%nat
    end.

Lemma batchLoop_logs (subs : list string) :
  forall (acc : list ScrapeResult) (w : World),
  exists new rows w',
    batchLoop scrape tf subs acc w = (Ok (acc ++ new), w') /\
    scraping_logs w' = scraping_logs w ++ rows /\
    map Log.subreddit rows = subs /\
    Forall2 log_agrees new rows.
Proof.
  induction subs as [|s rest IH]; intros acc w.
  - exists [], [], w. simpl. rewrite !app_nil_r. repeat split. constructor.
  - cbn [batchLoop]. unfold bind at 1, try_catch at 1, bind at 1.
    destruct (scrape_logged s w) as (row & Hrow & Hsub & Hres).
    destruct (scrape s w) as [[r|e] w1]; simpl in Hrow, Hres.
    + destruct Hres as (Hname & Herr & Hst & Hf & Hs).
      unfold bind at 1, delay at 1, modify at 1, ret at 1.
      destruct (IH (acc ++ [r]) (record_event (EDelay 2000) w1))
        as (new & rows & w' & Hrun & Hlogs & Hmap & Hagree).
      exists (r :: new), (row :: rows), w'.
      rewrite Hrun, <- app_assoc, Hlogs. simpl. rewrite Hrow, <- app_assoc.
      repeat split; try congruence.
      constructor; [|exact Hagree].
      unfold log_agrees. rewrite Herr. repeat split; congruence.
    + destruct Hres as (Hst & Hf & Hs). unfold ret at 1.
      destruct (IH (acc ++ [error_entry s tf e]) w1)
        as (new & rows & w' & Hrun & Hlogs & Hmap & Hagree).
      exists (error_entry s tf e :: new), (row :: rows), w'.
      rewrite Hrun, <- app_assoc, Hlogs, Hrow, <- app_assoc. simpl.
      repeat split; try congruence.
      constructor; [|exact Hagree].
      unfold log_agrees. simpl. repeat split; assumption.
Qed.

End BatchLogs.

(** When the store accepts log rows, a manual batch appends exactly one row
    to [scraping_logs] per tracked feed, in the order of the list, and each
    row tells what the entry of its feed in the batch result tells: the
    status, the number of posts found and the number saved, both 0 for a
    feed that failed. *)
Theorem batch_logs_agree_with_result (env : Env) (w : World) (timeframe : string) :
  (forall n s, db_fault env n (InsertLog s) = None) ->
  (exists b w' rows,
     scrapeAllSubreddits env w = (Ok b, w') /\
     scraping_logs w' = scraping_logs w ++ rows /\
     map Log.subreddit rows = trackedSubreddits /\
     Forall2 log_agrees (results b) rows) /\
  (exists b w' rows,
     scrapeTopPostsAllSubreddits env timeframe w = (Ok b, w') /\
     scraping_logs w' = scraping_logs w ++ rows /\
     map Log.subreddit rows = trackedSubreddits /\
     Forall2 log_agrees (results b) rows).
Proof.
  intros Hlog.
  assert (Hscrape : forall mode limit s w0, exists row,
             scraping_logs (snd (scrapeOne env mode s limit w0))
               = scraping_logs w0 ++ [row] /\
             Log.subreddit row = s /\
             match fst (scrapeOne env mode s limit w0) with
             | Ok r =>
                 subreddit r = s /\ error r = None /\
                 Log.status row = "success" /\
                 Log.posts_found row = totalPosts r /\
                 Log.posts_saved row = newPosts r
             | Throw _ =>
                 Log.status row = "error" /\
                 Log.posts_found row = 0%nat /\
                 Log.posts_saved row = 0%nat
             end).
  { intros mode limit s w0.
    pose proof (scrapeOne_result env mode s limit w0) as Hres.
    rewrite scrapeOne_listing in *.
    destruct (@scrapeListing_logged env (feed_url mode s limit)
                (scrape_type mode)
                match mode with Top tf0 => Some tf0 | _ => None end
                s w0 (fun n => Hlog n s))
      as (row & Hrow & Hsub & _ & Hst & _).
    exists row. split; [exact Hrow|]. split; [exact Hsub|].
    destruct (fst (scrapeListing _ _ _ _ _ _)) as [r|e]; tauto. }
  split.
  - destruct (@batchLoop_logs (fun s => scrapeOne env Hot s 25) None
                (Hscrape Hot 25) trackedSubreddits [] w)
      as (new & rows & w' & Hrun & H).
    unfold scrapeAllSubreddits. unfold bind at 1.
    change (fun s => scrapeSubreddit env s 25)
      with (fun s => scrapeOne env Hot s 25).
    rewrite Hrun. unfold ret. eexists. exists w', rows.
    split; [reflexivity | exact H].
  - destruct (@batchLoop_logs (fun s => scrapeOne env (Top timeframe) s 50)
                (Some timeframe) (Hscrape (Top timeframe) 50)
                trackedSubreddits [] w)
      as (new & rows & w' & Hrun & H).
    unfold scrapeTopPostsAllSubreddits. unfold bind at 1.
    change (fun s => getTopPosts env s timeframe 50)
      with (fun s => scrapeOne env (Top timeframe) s 50).
    rewrite Hrun. unfold ret. eexists. exists w', rows.
    split; [reflexivity | exact H].
Qed.

Lemma batch_logs_agree_with_result_witness :
  exists b w' rows,
    scrapeAllSubreddits first_feed_down_env empty_world = (Ok b, w') /\
    scraping_logs w' = rows /\
    map Log.status rows
    = ["error"; "success"; "success"; "success"; "success"; "success";
       "success"; "success"; "success"] /\
    Forall2 log_agrees (results b) rows.
Proof.
  destruct (proj1 (@batch_logs_agree_with_result first_feed_down_env
                     empty_world "week" (fun _ _ => eq_refl)))
    as (b & w' & rows & Hrun & Hlogs & _ & Hagree).
  exists b, w', rows. split; [exact Hrun|]. split; [exact Hlogs|].
  split; [|exact Hagree].
  assert (Hw : w' = snd (scrapeAllSubreddits first_feed_down_env empty_world))
    by (rewrite Hrun; reflexivity).
  simpl in Hlogs. rewrite <- Hlogs, Hw. vm_compute. reflexivity.
Defined.

(** ** Table [subreddits] *)

Lemma update_subs_absent (name : string) (f : Sub.t -> Sub.t) (rows : list Sub.t) :
  ~ In name (map Sub.name rows) -> update_subs name f rows = rows.
Proof.
  induction rows as [|s rows IH]; simpl; intros H; [reflexivity|].
  destruct (Sub.name s =? name)%string eqn:E.
  - apply String.eqb_eq in E. tauto.
  - f_equal. apply IH. tauto.
Qed.

Lemma filter_name_absent (name : string) (rows : list Sub.t) :
  ~ In name (map Sub.name rows) ->
  filter (fun s => (Sub.name s =? name)%string) rows = [].
Proof.
  induction rows as [|s rows IH]; simpl; intros H; [reflexivity|].
  destruct (Sub.name s =? name)%string eqn:E.
  - apply String.eqb_eq in E. tauto.
  - apply IH. tauto.
Qed.

(** When the store accepts its request, [updateSubredditLastScraped]
    returns; it adds and removes no row of [subreddits], leaves the rows of
    other feeds as they are, and in the rows of its feed writes
    last_scraped_at only; for a feed the table does not hold it changes
    nothing and returns no row, so that scraping an untracked feed is no
    error.  When the store refuses the request, it throws the refusal and
    the table is as it was. *)
Theorem touch_writes_last_scraped_only (env : Env) (name : string) (w : World) :
  (db_fault env (db_no w) (UpdateSubreddit name) = None ->
   exists data w',
     updateSubredditLastScraped env name w = (Ok data, w') /\
     Forall2
       (fun s s' =>
          same_feed s s' /\
          (Sub.name s <> name -> s' = s) /\
          (Sub.name s = name ->
           Sub.last_scraped_at s' = Some (clock env (length (trace w)))))
       (subreddits w) (subreddits w') /\
     (~ In name (map Sub.name (subreddits w)) ->
      data = [] /\ subreddits w' = subreddits w)) /\
  (forall e,
     db_fault env (db_no w) (UpdateSubreddit name) = Some e ->
     exists w',
       updateSubredditLastScraped env name w = (Throw e, w') /\
       subreddits w' = subreddits w).
Proof.
  unfold updateSubredditLastScraped. unfold_m. split.
  - intros Hok. rewrite Hok. simpl. do 2 eexists. split; [reflexivity|].
    simpl. split.
    + unfold update_subs. apply Forall2_map_in. intros s _.
      destruct (Sub.name s =? name)%string eqn:E.
      * apply String.eqb_eq in E. repeat split. intros Hne. contradiction.
      * apply String.eqb_neq in E. repeat split. intros Heq. contradiction.
    + intros Hnot. rewrite (@update_subs_absent _ _ _ Hnot).
      split; [apply filter_name_absent; exact Hnot | reflexivity].
  - intros e Hbad. rewrite Hbad. eexists. split; reflexivity.
Qed.

Lemma touch_writes_last_scraped_only_witness :
  let w := set_subreddits [sample_sub "SaaS"] empty_world in
  db_fault refetch_env (db_no w) (UpdateSubreddit "golang") = None /\
  exists w',
    updateSubredditLastScraped refetch_env "golang" w = (Ok [], w') /\
    subreddits w' = [sample_sub "SaaS"].
Proof.
  intros w.
  assert (Hok : db_fault refetch_env (db_no w) (UpdateSubreddit "golang") = None)
    by reflexivity.
  split; [exact Hok|].
  destruct (proj1 (touch_writes_last_scraped_only refetch_env "golang" w) Hok)
    as (data & w' & Hrun & _ & Habsent).
  assert (Hnot : ~ In "golang" (map Sub.name (subreddits w))).
  { simpl. intros [H|[]]. discriminate. }
  destruct (Habsent Hnot) as [Hdata Hsubs].
  exists w'. rewrite Hdata in Hrun. split; [exact Hrun | exact Hsubs].
Defined.

(** In a store that refuses nothing, a feed added with [addSubreddit] is
    active at once: [getActiveSubreddits] then returns the feeds that were
    active before, followed by the new row, whose display name is the one
    given or, when none or the empty one is given, the name. *)
Theorem added_feed_is_active (env : Env) (name : string)
    (displayName description : option string) (w : World) :
  (forall n op, db_fault env n op = None) ->
  exists row w1 w2,
    addSubreddit env name displayName description w = (Ok [row], w1) /\
    getActiveSubreddits env w1
      = (Ok (filter Sub.is_active (subreddits w) ++ [row]), w2) /\
    Sub.name row = name /\
    Sub.display_name row = str_or displayName name /\
    Sub.last_scraped_at row = None.
Proof.
  intros Hdb. unfold addSubreddit, getActiveSubreddits. unfold_m.
  rewrite !Hdb. simpl. do 3 eexists. split; [reflexivity|].
  rewrite Hdb. simpl. rewrite filter_app. simpl. repeat split.
Qed.

Lemma added_feed_is_active_witness :
  exists row w1 w2,
    addSubreddit refetch_env "golang" (Some "") None empty_world = (Ok [row], w1) /\
    getActiveSubreddits refetch_env w1 = (Ok [row], w2) /\
    Sub.display_name row = "golang".
Proof.
  destruct (@added_feed_is_active refetch_env "golang" (Some "") None
              empty_world (fun _ _ => eq_refl))
    as (row & w1 & w2 & Hadd & Hact & _ & Hdn & _).
  exists row, w1, w2. split; [exact Hadd|]. split; [exact Hact | exact Hdn].
Defined.

Lemma update_subs_twice (name : string) (b1 b2 : bool) (rows : list Sub.t) :
  update_subs name (set_active b2) (update_subs name (set_active b1) rows)
  = update_subs name (set_active b2) rows.
Proof.
  unfold update_subs. rewrite map_map. apply map_ext. intros s.
  destruct (Sub.name s =? name)%string eqn:E; simpl; rewrite E; reflexivity.
Qed.

Lemma filter_active_toggled_off (name : string) (rows : list Sub.t) :
  filter Sub.is_active (update_subs name (set_active false) rows)
  = filter (fun s => Sub.is_active s && negb (Sub.name s =? name)%string) rows.
Proof.
  induction rows as [|s rows IH]; [reflexivity|]. simpl.
  destruct (Sub.name s =? name)%string eqn:E; simpl.
  - rewrite andb_false_r. exact IH.
  - rewrite andb_true_r. destruct (Sub.is_active s); rewrite IH; reflexivity.
Qed.

(** In a store that refuses nothing, toggling a feed off removes every row
    of that name, and no other row, from what [getActiveSubreddits]
    returns; and of two toggles of the same feed the later one decides. *)
Theorem toggled_off_feed_is_not_active (env : Env) (name : string) (w : World) :
  (forall n op, db_fault env n op = None) ->
  (exists data w1 w2,
     toggleSubreddit env name false w = (Ok data, w1) /\
     getActiveSubreddits env w1
       = (Ok (filter (fun s => Sub.is_active s && negb (Sub.name s =? name)%string)
                     (subreddits w)), w2)) /\
  (forall b1 b2,
     subreddits (snd (toggleSubreddit env name b2
                        (snd (toggleSubreddit env name b1 w))))
     = subreddits (snd (toggleSubreddit env name b2 w))).
Proof.
  intros Hdb. split.
  - unfold toggleSubreddit, getActiveSubreddits. unfold_m.
    rewrite !Hdb. simpl. do 3 eexists. split; [reflexivity|].
    rewrite Hdb. simpl. rewrite filter_active_toggled_off. reflexivity.
  - intros b1 b2. unfold toggleSubreddit. unfold_m.
    rewrite !Hdb. simpl. apply update_subs_twice.
Qed.

Lemma toggled_off_feed_is_not_active_witness :
  let w := set_subreddits [sample_sub "SaaS"; sample_sub "golang"] empty_world in
  exists data w1 w2,
    toggleSubreddit refetch_env "SaaS" false w = (Ok data, w1) /\
    getActiveSubreddits refetch_env w1 = (Ok [sample_sub "golang"], w2).
Proof.
  intros w.
  destruct (proj1 (@toggled_off_feed_is_not_active refetch_env "SaaS" w
                     (fun _ _ => eq_refl)))
    as (data & w1 & w2 & Htog & Hact).
  exists data, w1, w2. split; [exact Htog | exact Hact].
Defined.

(** ** Save, then look up *)

(** In a store with one row per id that refuses nothing, what [savePost]
    saved is what [getPostById] finds: the lookup of the id returns the one
    row [savePost] returned, and its mutable columns hold what was saved,
    whether the post was new or known.  Before the first save of an id the
    lookup returns null and does not throw. *)
Theorem saved_post_is_found (env : Env) (pd : Post.t) (w : World) :
  (forall n op, db_fault env n op = None) ->
  NoDup (post_ids w) ->
  (exists r w1 w2,
     savePost env pd w = (Ok [r], w1) /\
     getPostById env (Post.id pd) w1 = (Ok (Some r), w2) /\
     PostRow.post_id r = Post.id pd /\
     up_to_date pd r) /\
  (~ In (Post.id pd) (post_ids w) ->
   fst (getPostById env (Post.id pd) w) = Ok None).
Proof.
  intros Hdb Hnd. split.
  - destruct (@savePost_no_fault env pd w Hdb) as [data Hok].
    destruct (savePost env pd w) as [res w1] eqn:Hrun. simpl in Hok. subst res.
    destruct (@savePost_ok_state env pd w w1 data Hnd Hrun)
      as (_ & (r & Hd & Hf) & Hup).
    subst data. exists r, w1.
    assert (Hin : In r (filter (has_id (Post.id pd)) (reddit_posts w1)))
      by (rewrite Hf; left; reflexivity).
    apply filter_In in Hin as [Hin Hb].
    unfold getPostById. unfold_m. rewrite Hdb. simpl. rewrite Hf. simpl.
    eexists. split; [reflexivity|]. split; [reflexivity|].
    split; [apply has_id_true; exact Hb | apply Hup; assumption].
  - intros Hnot. unfold getPostById. unfold_m. rewrite Hdb. simpl.
    rewrite (@filter_has_id_absent _ _ Hnot). reflexivity.
Qed.

Lemma saved_post_is_found_witness :
  exists r w1 w2,
    savePost refetch_env (formatPostData (sample_post "p1" 15 3)) world_with_p1
      = (Ok [r], w1) /\
    getPostById refetch_env "p1" w1 = (Ok (Some r), w2) /\
    PostRow.score r = JNum (inject_Z 15).
Proof.
  assert (Hnd : NoDup (post_ids world_with_p1)).
  { vm_compute. constructor; [intros [] | constructor]. }
  destruct (proj1 (@saved_post_is_found refetch_env
                     (formatPostData (sample_post "p1" 15 3)) world_with_p1
                     (fun _ _ => eq_refl) Hnd))
    as (r & w1 & w2 & Hsave & Hget & _ & Hup).
  exists r, w1, w2. split; [exact Hsave|]. split; [exact Hget|].
  apply Hup.
Defined.

(** ** Normalization, once more *)

Lemma js_or_idempotent (a d : JsVal) : js_or (js_or a d) d = js_or a d.
Proof.
  unfold js_or. destruct (truthy a) eqn:Ha.
  - rewrite Ha. reflexivity.
  - destruct (truthy d); reflexivity.
Qed.

(** Normalizing a normalized post changes nothing; the author of a
    normalized post is never falsy; and the default [savePost] applies to
    is_video when it inserts is then without effect. *)
Theorem formatPostData_idempotent (post : Post.t) :
  formatPostData (formatPostData post) = formatPostData post /\
  truthy (Post.author (formatPostData post)) = true /\
  PostRow.is_video (insert_row (formatPostData post))
  = Post.is_video (formatPostData post).
Proof.
  split; [|split].
  - unfold formatPostData. simpl. rewrite !js_or_idempotent. reflexivity.
  - simpl. unfold js_or. destruct (truthy (Post.author post)) eqn:E;
      [exact E | reflexivity].
  - simpl. apply js_or_idempotent.
Qed.

(** ** RedditService.searchPosts *)

(** A search returns one hit per post of the fetched listing, in the order
    of the listing, with the id of the post and an author that is never
    falsy; it persists nothing: the four tables are as they were, whether
    the fetch succeeds or fails. *)
Theorem search_returns_listing_and_persists_nothing (env : Env)
    (name query : string) (limit : Z) (w : World) :
  let run := searchPosts env name query limit w in
  (forall items,
     http env (http_no w) (search_url env name query limit) = inr items ->
     exists hits,
       fst run = Ok hits /\
       map hit_id hits = map Post.id items /\
       Forall (fun h => truthy (hit_author h) = true) hits) /\
  reddit_posts (snd run) = reddit_posts w /\
  post_snapshots (snd run) = post_snapshots w /\
  scraping_logs (snd run) = scraping_logs w /\
  subreddits (snd run) = subreddits w.
Proof.
  intros run. unfold run, searchPosts. unfold_m. rewrite http_no_record_delay.
  destruct (http env (http_no w) (search_url env name query limit))
    as [e|items0]; simpl; (split; [|repeat split]).
  - intros items H. discriminate.
  - intros items H. inversion H; subst. eexists. split; [reflexivity|].
    split.
    + rewrite map_map. reflexivity.
    + apply Forall_forall. intros h Hin. apply in_map_iff in Hin as (p & <- & _).
      simpl. unfold js_or. destruct (truthy (Post.author p)) eqn:E;
        [exact E | reflexivity].
Qed.

Lemma search_returns_listing_and_persists_nothing_witness :
  exists hits,
    fst (searchPosts refetch_env "SaaS" "pricing" 25 world_with_p1) = Ok hits /\
    map hit_id hits = ["p1"].
Proof.
  destruct (proj1 (@search_returns_listing_and_persists_nothing refetch_env
                     "SaaS" "pricing" 25 world_with_p1)
              [sample_post "p1" 15 3] eq_refl)
    as (hits & Hrun & Hids & _).
  exists hits. split; [exact Hrun | exact Hids].
Defined.

(** ** The first version of the scrape *)

Lemma known_In (rows : list PostRow.t) (id : string) :
  known rows id = true <-> In id (map PostRow.post_id rows).
Proof.
  unfold known. rewrite existsb_exists, in_map_iff. split.
  - intros (r & Hin & Hb). exists r. split; [apply has_id_true; exact Hb | exact Hin].
  - intros (r & Hid & Hin). exists r. split; [exact Hin | apply has_id_true; exact Hid].
Qed.

Lemma unknown_posts_after_insert (rows : list PostRow.t) (row : PostRow.t)
    (items : list Post.t) :
  ~ In (PostRow.post_id row) (map Post.id items) ->
  unknown_posts (rows ++ [row]) items = unknown_posts rows items.
Proof.
  intros Hnot. unfold unknown_posts. apply filter_ext_in. intros p Hin.
  f_equal. unfold known. rewrite existsb_app. simpl.
  rewrite orb_false_r.
  destruct (has_id (Post.id p) row) eqn:E; [|apply orb_false_r].
  apply has_id_true in E. exfalso. apply Hnot. rewrite E.
  apply in_map. exact Hin.
Qed.

(** The loop of the first version, in a store that refuses nothing: it
    inserts the posts whose id is not in the table, and only looks at the
    others. *)
Lemma legacy_savePosts_run (env : Env) (posts : list Post.t) :
  (forall n op, db_fault env n op = None) ->
  NoDup (map Post.id posts) ->
  forall (acc : list (list PostRow.t)) (w : World),
  NoDup (post_ids w) ->
  exists w',
    Legacy.savePosts env posts acc w
    = (Ok (acc ++ map (fun p => [Legacy.insert_row (Legacy.postData p)])
                      (unknown_posts (reddit_posts w) posts)), w') /\
    reddit_posts w'
    = reddit_posts w
      ++ map (fun p => Legacy.insert_row (Legacy.postData p))
             (unknown_posts (reddit_posts w) posts).
Proof.
  intros Hdb. induction posts as [|post rest IH]; intros Hids acc w Hnd.
  - exists w. simpl. rewrite !app_nil_r. split; reflexivity.
  - inversion Hids as [|x l Hnotin Hids']; subst x l.
    cbn [Legacy.savePosts]. unfold getPostById. unfold_m. rewrite Hdb.
    cbn [reddit_posts record_event]. unfold post_ids in *.
    unfold unknown_posts at 1 2. cbn [filter].
    destruct (known (reddit_posts w) (Post.id post)) eqn:Hk.
    + apply known_In in Hk. apply in_map_iff in Hk as (r0 & Hid0 & Hin0).
      rewrite (@filter_has_id_present _ _ r0 Hnd Hin0 Hid0).
      cbn [single negb].
      destruct (IH Hids' acc
                  (record_event (EDb (SelectPost (Post.id post)) true) w) Hnd)
        as (w' & Hrun & Hposts).
      exists w'. split; [exact Hrun | exact Hposts].
    + assert (Hnot : ~ In (Post.id post) (map PostRow.post_id (reddit_posts w))).
      { intros Hin. apply known_In in Hin. congruence. }
      rewrite (@filter_has_id_absent _ _ Hnot). cbn [single negb].
      unfold Legacy.savePost. unfold_m. rewrite Hdb.
      set (row := Legacy.insert_row (Legacy.postData post)).
      set (w1 := set_reddit_posts (reddit_posts _ ++ [row]) _).
      assert (Hnd1 : NoDup (map PostRow.post_id (reddit_posts w1))).
      { unfold w1. simpl. rewrite map_app. simpl.
        apply NoDup_app; [exact Hnd | repeat constructor; simpl; tauto |].
        intros x Hx [Hx'|[]]. subst x. contradiction. }
      destruct (IH Hids' (acc ++ [[row]]) w1 Hnd1) as (w' & Hrun & Hposts).
      exists w'. rewrite Hrun, Hposts. unfold w1. cbn [reddit_posts set_reddit_posts record_event].
      rewrite (@unknown_posts_after_insert (reddit_posts w) row rest Hnotin).
      cbn [map]. rewrite <- !app_assoc. split; reflexivity.
Qed.

(** The first version of the scrape, in a store with one row per id that
    refuses nothing, on a listing with distinct ids: [newPosts] is the
    number of posts whose id the store did not hold, [posts] holds the rows
    inserted for them, in listing order, and the table is the table before
    the scrape followed by these rows: a known post is neither counted nor
    updated. *)
Theorem legacy_scrape_counts_new_posts_only (env : Env) (url : string)
    (tf : option string) (name : string) (w : World) (items : list Post.t) :
  http env (http_no w) url = inr items ->
  (forall n op, db_fault env n op = None) ->
  NoDup (post_ids w) ->
  NoDup (map Post.id items) ->
  exists r w',
    Legacy.scrapeListing env url tf name w = (Ok r, w') /\
    Legacy.totalPosts r = length items /\
    Legacy.newPosts r = length (unknown_posts (reddit_posts w) items) /\
    Legacy.posts r
    = map (fun p => [Legacy.insert_row (Legacy.postData p)])
          (unknown_posts (reddit_posts w) items) /\
    reddit_posts w'
    = reddit_posts w
      ++ map (fun p => Legacy.insert_row (Legacy.postData p))
             (unknown_posts (reddit_posts w) items).
Proof.
  intros Hh Hdb Hnd Hids. unfold Legacy.scrapeListing. unfold_m.
  rewrite http_no_record_delay, Hh.
  destruct (@legacy_savePosts_run env items Hdb Hids []
              (record_event (EGet url) (record_event (EDelay 1000) w)) Hnd)
    as (w' & Hrun & Hposts).
  rewrite Hrun. simpl in Hposts. cbn [app].
  do 2 eexists. split; [reflexivity|]. simpl.
  rewrite length_map. repeat split. exact Hposts.
Qed.

Lemma legacy_scrape_counts_new_posts_only_witness :
  exists r w',
    Legacy.scrapeSubreddit refetch_env "SaaS" 25 world_with_p1 = (Ok r, w') /\
    Legacy.totalPosts r = 1%nat /\
    Legacy.newPosts r = 0%nat /\
    reddit_posts w' = reddit_posts world_with_p1.
Proof.
  assert (Hnd : NoDup (post_ids world_with_p1)).
  { vm_compute. constructor; [intros [] | constructor]. }
  assert (Hids : NoDup (map Post.id [sample_post "p1" 15 3])).
  { simpl. constructor; [intros [] | constructor]. }
  destruct (@legacy_scrape_counts_new_posts_only refetch_env
              (hot_url "SaaS" 25) None "SaaS" world_with_p1
              [sample_post "p1" 15 3] eq_refl (fun _ _ => eq_refl) Hnd Hids)
    as (r & w' & Hrun & Htot & Hnew & _ & Hposts).
  exists r, w'. split; [exact Hrun|]. split; [exact Htot|].
  split.
  - rewrite Hnew. vm_compute. reflexivity.
  - rewrite Hposts. vm_compute. reflexivity.
Defined.





(** ** Configuration *)

Lemma js_not_default (x : option string) :
  js_not (Some (str_or x "nodejs:reddit-scraper:v1.0.0")) = false.
Proof.
  unfold js_not, str_or. destruct x as [s|]; simpl; [|reflexivity].
  destruct (s =? "")%string eqn:E; simpl; [reflexivity|]. rewrite E. reflexivity.
Qed.

(** With the configuration [configuration] loads, the user agent never
    stops [RedditService.onModuleInit], set or not: its check throws the
    configuration error exactly when one of client id, client secret, user
    name and password is unset or empty. *)
Theorem init_fails_on_missing_credentials (penv : ProcessEnv) :
  (reddit_onModuleInit (configuration penv) = None <->
   js_not (REDDIT_CLIENT_ID penv) = false /\
   js_not (REDDIT_CLIENT_SECRET penv) = false /\
   js_not (REDDIT_USERNAME penv) = false /\
   js_not (REDDIT_PASSWORD penv) = false) /\
  (reddit_onModuleInit (configuration penv) <> None ->
   reddit_onModuleInit (configuration penv)
   = Some (mkError "Reddit credentials are not properly configured")).
Proof.
  unfold reddit_onModuleInit, configuration.
  cbn [reddit_userAgent reddit_clientId reddit_clientSecret reddit_username
       reddit_password].
  rewrite js_not_default.
  destruct (js_not (REDDIT_CLIENT_ID penv)),
           (js_not (REDDIT_CLIENT_SECRET penv)),
           (js_not (REDDIT_USERNAME penv)),
           (js_not (REDDIT_PASSWORD penv));
    simpl; repeat split; intros; try discriminate; try tauto;
    repeat match goal with H : _ /\ _ |- _ => destruct H end;
    try discriminate; try congruence.
Qed.

Lemma init_fails_on_missing_credentials_witness :
  let unset_agent := {| REDDIT_CLIENT_ID := Some "id";
                        REDDIT_CLIENT_SECRET := Some "secret";
                        REDDIT_USERNAME := Some "bot";
                        REDDIT_PASSWORD := Some "hunter2";
                        REDDIT_USER_AGENT := None;
                        SUPABASE_URL := None;
                        SUPABASE_ANON_KEY := None |} in
  let empty_password := {| REDDIT_CLIENT_ID := Some "id";
                           REDDIT_CLIENT_SECRET := Some "secret";
                           REDDIT_USERNAME := Some "bot";
                           REDDIT_PASSWORD := Some "";
                           REDDIT_USER_AGENT := Some "agent";
                           SUPABASE_URL := None;
                           SUPABASE_ANON_KEY := None |} in
  reddit_onModuleInit (configuration unset_agent) = None /\
  reddit_onModuleInit (configuration empty_password)
  = Some (mkError "Reddit credentials are not properly configured").
Proof.
  intros unset_agent empty_password.
  destruct (init_fails_on_missing_credentials unset_agent) as [Hr _].
  destruct (init_fails_on_missing_credentials empty_password) as [Hr' Hmsg].
  split.
  - apply Hr. repeat split.
  - apply Hmsg. intros H. apply Hr' in H. destruct H as (_ & _ & _ & H).
    discriminate.
Defined.

(** ** The store after a scrape *)

Lemma update_posts_other_id (pd : Post.t) (now : Date) (id : string)
    (rows : list PostRow.t) :
  id <> Post.id pd ->
  filter (has_id id) (update_posts pd now rows) = filter (has_id id) rows.
Proof.
  intros Hne. induction rows as [|r rows IH]; [reflexivity|]. simpl.
  destruct (has_id (Post.id pd) r) eqn:E.
  - apply has_id_true in E.
    assert (H1 : has_id id (update_row pd now r) = false)
      by (apply has_id_false; simpl; congruence).
    assert (H2 : has_id id r = false) by (apply has_id_false; congruence).
    rewrite H1, H2. exact IH.
  - destruct (has_id id r); rewrite IH; reflexivity.
Qed.

(** [savePost] leaves the rows of every other id as they are. *)
Lemma savePost_other_id (env : Env) (pd : Post.t) (w : World) (id : string) :
  id <> Post.id pd ->
  filter (has_id id) (reddit_posts (snd (savePost env pd w)))
  = filter (has_id id) (reddit_posts w).
Proof.
  intros Hne. destruct (savePost env pd w) as [[data|e] w'] eqn:Hrun; simpl.
  - apply savePost_ok in Hrun.
    destruct (single (filter (has_id (Post.id pd)) (reddit_posts w))).
    + destruct Hrun as (now & Hposts & _). rewrite Hposts.
      apply update_posts_other_id. exact Hne.
    + destruct Hrun as [Hposts _]. rewrite Hposts, filter_app. simpl.
      assert (H : has_id id (insert_row pd) = false)
        by (apply has_id_false; simpl; congruence).
      rewrite H. apply app_nil_r.
  - apply savePost_throw in Hrun. rewrite Hrun. reflexivity.
Qed.

Lemma savePosts_other_id (env : Env) (posts : list Post.t) (id : string) :
  ~ In id (map Post.id posts) ->
  forall (acc : list (list PostRow.t)) (w : World),
  filter (has_id id) (reddit_posts (snd (savePosts env posts acc w)))
  = filter (has_id id) (reddit_posts w).
Proof.
  induction posts as [|post rest IH]; intros Hnot acc w; [reflexivity|].
  simpl in Hnot.
  cbn [savePosts]. unfold bind at 1, try_catch at 1, bind at 1.
  pose proof (@savePost_other_id env (formatPostData post) w id) as H1.
  destruct (savePost env (formatPostData post) w) as [[data|e] w1];
    simpl in H1; unfold ret at 1, truthy_rows; cbv iota;
    (rewrite IH by tauto); apply H1; simpl; intros Heq; apply Hnot; left;
    symmetry; exact Heq.
Qed.

(** After the item loop, in a store with one row per id that refuses
    nothing, every post of a listing with distinct ids has its one row, and
    the mutable columns of the row hold what the listing carried. *)
Lemma savePosts_store_reflects_listing (env : Env) (posts : list Post.t) :
  (forall n op, db_fault env n op = None) ->
  NoDup (map Post.id posts) ->
  forall (acc : list (list PostRow.t)) (w : World),
  NoDup (post_ids w) ->
  forall post, In post posts ->
  exists r,
    filter (has_id (Post.id post))
      (reddit_posts (snd (savePosts env posts acc w))) = [r] /\
    up_to_date (formatPostData post) r.
Proof.
  intros Hdb. induction posts as [|p rest IH]; intros Hids acc w Hnd post Hin;
    [contradiction|].
  inversion Hids as [|x l Hnotin Hids']; subst x l.
  cbn [savePosts]. unfold bind at 1, try_catch at 1, bind at 1.
  destruct (@savePost_no_fault env (formatPostData p) w Hdb) as [data Hok].
  destruct (savePost env (formatPostData p) w) as [res w1] eqn:Hrun.
  simpl in Hok. subst res. unfold ret at 1, truthy_rows. cbv iota.
  destruct (@savePost_ok_state env (formatPostData p) w w1 data Hnd Hrun)
    as (Hnd1 & (r & Hd & Hf) & Hup).
  destruct Hin as [<-|Hin].
  - exists r. rewrite savePosts_other_id by exact Hnotin. split; [exact Hf|].
    apply Hup.
    + assert (Hr : In r (filter (has_id (Post.id (formatPostData p)))
                           (reddit_posts w1)))
        by (rewrite Hf; left; reflexivity).
      apply filter_In in Hr. tauto.
    + assert (Hr : In r (filter (has_id (Post.id (formatPostData p)))
                           (reddit_posts w1)))
        by (rewrite Hf; left; reflexivity).
      apply filter_In in Hr. tauto.
  - apply IH; assumption.
Qed.

(** After a scrape that returns, in a store with one row per id that refuses
    nothing, the store reflects the listing: every post of a listing with
    distinct ids has exactly one row, whose score, num_comments,
    upvote_ratio and selftext are those of the normalized post, whether the
    post was new or known. *)
Theorem store_reflects_listing_after_scrape (env : Env) (mode : Mode)
    (name : string) (limit : Z) (w : World) (items : list Post.t) :
  http env (http_no w) (feed_url mode name limit) = inr items ->
  (forall n op, db_fault env n op = None) ->
  NoDup (post_ids w) ->
  NoDup (map Post.id items) ->
  exists r w',
    scrapeOne env mode name limit w = (Ok r, w') /\
    forall post, In post items ->
      exists row,
        filter (has_id (Post.id post)) (reddit_posts w') = [row] /\
        up_to_date (formatPostData post) row.
Proof.
  intros Hh Hdb Hnd Hids.
  pose proof (@savePosts_store_reflects_listing env items Hdb Hids []
                (record_event (EGet (feed_url mode name limit))
                   (record_event (EDelay 1000) w)) Hnd) as Hrows.
  rewrite scrapeOne_listing. open_listing. rewrite Hh.
  destruct (savePosts env items [] _) as [[saved|e] w1] eqn:Hloop.
  - rewrite !Hdb. simpl. do 2 eexists. split; [reflexivity|]. exact Hrows.
  - exfalso.
    destruct (savePosts_run env items []
                (record_event (EGet (feed_url mode name limit))
                   (record_event (EDelay 1000) w)))
      as (new & evs & w2 & Hrun & _).
    rewrite Hrun in Hloop. discriminate.
Qed.

Lemma store_reflects_listing_after_scrape_witness :
  exists r w' row,
    scrapeOne refetch_env Hot "SaaS" 25 world_with_p1 = (Ok r, w') /\
    filter (has_id "p1") (reddit_posts w') = [row] /\
    PostRow.score row = JNum (inject_Z 15).
Proof.
  assert (Hnd : NoDup (post_ids world_with_p1)).
  { vm_compute. constructor; [intros [] | constructor]. }
  assert (Hids : NoDup (map Post.id [sample_post "p1" 15 3])).
  { simpl. constructor; [intros [] | constructor]. }
  destruct (@store_reflects_listing_after_scrape refetch_env Hot "SaaS" 25
              world_with_p1 [sample_post "p1" 15 3] eq_refl
              (fun _ _ => eq_refl) Hnd Hids)
    as (r & w' & Hrun & Hrows).
  destruct (Hrows (sample_post "p1" 15 3) (or_introl eq_refl))
    as (row & Hf & Hup).
  exists r, w', row. split; [exact Hrun|]. split; [exact Hf|]. apply Hup.
Defined.
